(** * m3u8SpeedDownload: a shallow embedding of [main.py]

    The script fetches an HLS playlist, downloads every segment it lists on a
    thread pool, writes an ffmpeg concat manifest of the [.ts] files found in
    the working directory and runs ffmpeg on it.

    Python [str] values are modelled as [string]: sequences of characters
    with code points below 256, compared by code point. *)

From Stdlib Require Import Ascii String ZArith Lia DecimalString.
From stdpp Require Import base option list strings gmap sorting.

Local Open Scope stdpp_scope.

(** ** Python [str] methods used by the script and by the library code it calls *)
Module PyStr.

Definition LF : ascii := "010"%char.
Definition CR : ascii := "013"%char.
Definition TAB : ascii := "009"%char.

(** [bool(s)]: the empty string is the only falsy string. *)
Definition truthy (s : string) : bool :=
  match s with EmptyString => false | String _ _ => true end.

(** [s.startswith(p)] *)
Fixpoint startswith (p s : string) : bool :=
  match p, s with
  | EmptyString, _ => true
  | String a p', String b s' => Ascii.eqb a b && startswith p' s'
  | String _ _, EmptyString => false
  end.

(** [s.endswith(p)] *)
Definition endswith (p s : string) : bool :=
  startswith (String.rev p) (String.rev s).

(** [c in s] for a one-character [c] *)
Fixpoint contains (c : ascii) (s : string) : bool :=
  match s with
  | EmptyString => false
  | String a s' => Ascii.eqb a c || contains c s'
  end.

(** The characters [str.splitlines] treats as line boundaries, among the
    code points below 256: LF, VT, FF, CR, FS, GS, RS and NEL. *)
Definition is_line_boundary (c : ascii) : bool :=
  bool_decide (N_of_ascii c ∈ [10; 11; 12; 13; 28; 29; 30; 133]%N).

(** [s.splitlines()]: [cur] is the line being read, [after_cr] tells that
    the previous character was a CR, whose following LF belongs to the same
    boundary.  A trailing boundary opens no further line. *)
Fixpoint splitlines_go (cur : string) (after_cr : bool) (s : string) : list string :=
  match s with
  | EmptyString => if truthy cur then [cur] else []
  | String c s' =>
      if after_cr && Ascii.eqb c LF then splitlines_go "" false s'
      else if is_line_boundary c then cur :: splitlines_go "" (Ascii.eqb c CR) s'
      else splitlines_go (cur +:+ String c "") false s'
  end.

Definition splitlines (s : string) : list string := splitlines_go "" false s.

(** [s.split(c)] for a one-character separator. *)
Fixpoint split (c : ascii) (s : string) : list string :=
  match s with
  | EmptyString => [""]
  | String a s' =>
      if Ascii.eqb a c then "" :: split c s'
      else match split c s' with
           | x :: xs => String a x :: xs
           | [] => [String a ""]
           end
  end.

(** [c.join(l)] *)
Fixpoint join (c : ascii) (l : list string) : string :=
  match l with
  | [] => ""
  | [x] => x
  | x :: xs => x +:+ String c (join c xs)
  end.

(** [s.split(c, 1)] when [c in s]: the parts before and after the first
    occurrence of [c]; [None] when [c] does not occur. *)
Fixpoint cut (c : ascii) (s : string) : option (string * string) :=
  match s with
  | EmptyString => None
  | String a s' =>
      if Ascii.eqb a c then Some ("", s')
      else match cut c s' with
           | Some (x, y) => Some (String a x, y)
           | None => None
           end
  end.

(** The parts before and after the last occurrence of [c]
    ([s[:i]] and [s[i+1:]] for [i = s.rfind(c)]); [None] when [i < 0]. *)
Fixpoint rcut (c : ascii) (s : string) : option (string * string) :=
  match s with
  | EmptyString => None
  | String a s' =>
      match rcut c s' with
      | Some (x, y) => Some (String a x, y)
      | None => if Ascii.eqb a c then Some ("", s') else None
      end
  end.

Fixpoint forallb (p : ascii → bool) (s : string) : bool :=
  match s with
  | EmptyString => true
  | String a s' => p a && forallb p s'
  end.

Fixpoint filter (p : ascii → bool) (s : string) : string :=
  match s with
  | EmptyString => ""
  | String a s' => if p a then String a (filter p s') else filter p s'
  end.

Fixpoint map (f : ascii → ascii) (s : string) : string :=
  match s with
  | EmptyString => ""
  | String a s' => String (f a) (map f s')
  end.

(** [s.lstrip(chars)] with the set [chars] given as a predicate. *)
Fixpoint lstrip (p : ascii → bool) (s : string) : string :=
  match s with
  | EmptyString => ""
  | String a s' => if p a then lstrip p s' else s
  end.

Definition strip (p : ascii → bool) (s : string) : string :=
  String.rev (lstrip p (String.rev (lstrip p s))).

Definition is_upper (c : ascii) : bool :=
  (65 <=? N_of_ascii c)%N && (N_of_ascii c <=? 90)%N.
Definition is_lower (c : ascii) : bool :=
  (97 <=? N_of_ascii c)%N && (N_of_ascii c <=? 122)%N.
Definition is_digit (c : ascii) : bool :=
  (48 <=? N_of_ascii c)%N && (N_of_ascii c <=? 57)%N.

(** [c.isascii() and c.isalpha()] *)
Definition is_ascii_alpha (c : ascii) : bool := is_upper c || is_lower c.

(** [s.lower()], on the ASCII letters (the library applies it to scheme
    names, which are ASCII). *)
Definition lower_char (c : ascii) : ascii :=
  if is_upper c then ascii_of_N (N_of_ascii c + 32) else c.
Definition lower (s : string) : string := map lower_char s.

(** [str(n)] for a non-negative integer. *)
Definition str_nat (n : nat) : string :=
  NilEmpty.string_of_uint (Nat.to_uint n).

End PyStr.

(** ** Exceptions

    Exceptions are data: a computation returns a value or raises. *)

(** The [ValueError]s of [urllib.parse], by their message:
    ["Invalid IPv6 URL"], ["IPvFuture address is invalid"],
    ["<repr of the address> does not appear to be an IPv4 or IPv6 address"]
    and ["An IPv4 address cannot be in brackets"]. *)
Inductive url_error :=
| InvalidIPv6URL
| InvalidIPvFuture
| NotAnAddress (address : string)
| IPv4InBrackets.

(** The exceptions that can reach the script.  All four are subclasses of
    [Exception]. *)
Inductive exn :=
| RequestException (msg : string)
| OSError (msg : string)
| CalledProcessError (returncode : Z) (stderr : option string)
| ValueError (why : url_error).

Inductive result (A : Type) :=
| Ok (a : A)
| Raise (e : exn).
Arguments Ok {A} a.
Arguments Raise {A} e.

Global Instance result_ret : MRet result := @Ok.
Global Instance result_bind : MBind result := fun A B k r =>
  match r with
  | Ok a => k a
  | Raise e => Raise e
  end.

(** ** [ipaddress]: the parsers behind [ip_address], on [str] arguments

    An [AddressValueError] never leaves [ip_address], which answers it with
    its own [ValueError]: the constructors return [None] where the library
    raises one. *)
Module IpAddress.
Import PyStr.

(** [_HEX_DIGITS] *)
Definition is_hex_digit (c : ascii) : bool :=
  is_digit c
  || ((65 <=? N_of_ascii c)%N && (N_of_ascii c <=? 70)%N)
  || ((97 <=? N_of_ascii c)%N && (N_of_ascii c <=? 102)%N).

Definition digit_value (c : ascii) : N :=
  if is_digit c then N_of_ascii c - 48
  else if is_upper c then N_of_ascii c - 55
  else N_of_ascii c - 87.

(** [int(s, base)] for a string of digits of the base. *)
Fixpoint int_go (base acc : N) (s : string) : N :=
  match s with
  | EmptyString => acc
  | String c s' => int_go base (acc * base + digit_value c) s'
  end.

Definition int (s : string) (base : N) : N := int_go base 0 s.

(** ['%x' % n] *)
Definition hex_digit (d : N) : ascii :=
  if (d <? 10)%N then ascii_of_N (48 + d) else ascii_of_N (87 + d).

Fixpoint hex_go (digits : nat) (n : N) (acc : string) : string :=
  match digits with
  | O => acc
  | S digits' =>
      let acc := String (hex_digit (n mod 16)) acc in
      if (n / 16 =? 0)%N then acc else hex_go digits' (n / 16) acc
  end.

Definition hex (n : N) : string := hex_go (S (N.to_nat (N.size n))) n "".

(** [IPv4Address._parse_octet] *)
Definition parse_octet (octet_str : string) : option N :=
  if negb (truthy octet_str) then None
  else if negb (forallb is_digit octet_str) then None
  else if (3 <? String.length octet_str)%nat then None
  else if negb (String.eqb octet_str "0") && startswith "0" octet_str then None
  else
    let octet_int := int octet_str 10 in
    if (255 <? octet_int)%N then None else Some octet_int.

(** [IPv4Address._ip_int_from_string] *)
Definition ipv4_int_from_string (ip_str : string) : option N :=
  if negb (truthy ip_str) then None
  else
    let octets := split "." ip_str in
    if negb (length octets =? 4)%nat then None
    else
      octets ← mapM parse_octet octets;
      Some (foldl (fun ip_int octet => ip_int * 256 + octet)%N 0%N octets).

(** [IPv4Address(address)]: the address as an integer. *)
Definition IPv4Address (address : string) : option N :=
  if contains "/" address then None else ipv4_int_from_string address.

(** [IPv6Address._parse_hextet]; [int('', 16)] raises. *)
Definition parse_hextet (hextet_str : string) : option N :=
  if negb (forallb is_hex_digit hextet_str) then None
  else if (4 <? String.length hextet_str)%nat then None
  else if negb (truthy hextet_str) then None
  else Some (int hextet_str 16).

(** The loop that looks for [::]: the indices from 1 to [len(parts) - 2]
    of the empty parts; a second one is an error. *)
Definition find_skip_index (parts : list string) : option (option nat) :=
  match List.filter (fun i => negb (truthy (List.nth i parts "")))
          (seq 1 (length parts - 2)) with
  | [] => Some None
  | [i] => Some (Some i)
  | _ => None
  end.

Definition hextets_value (ip_int : N) (hextets : list N) : N :=
  foldl (fun ip_int hextet => N.lor (N.shiftl ip_int 16) hextet) ip_int hextets.

(** [IPv6Address._ip_int_from_string] *)
Definition ipv6_int_from_string (ip_str : string) : option N :=
  if negb (truthy ip_str) then None
  else
    let parts := split ":" ip_str in
    if (length parts <? 3)%nat then None
    else
      parts ←
        (if contains "." (List.last parts "")
         then
           ipv4_int ← IPv4Address (List.last parts "");
           Some (removelast parts
                 ++ [hex (N.land (N.shiftr ipv4_int 16) 65535);
                     hex (N.land ipv4_int 65535)])
         else Some parts);
      if (9 <? length parts)%nat then None
      else
        skip_index ← find_skip_index parts;
        counts ←
          match skip_index with
          | Some skip_index =>
              let parts_hi := skip_index in
              let parts_lo := (length parts - skip_index - 1)%nat in
              parts_hi ←
                (if negb (truthy (List.nth 0 parts ""))
                 then if (parts_hi - 1 =? 0)%nat then Some (parts_hi - 1)%nat else None
                 else Some parts_hi);
              parts_lo ←
                (if negb (truthy (List.last parts ""))
                 then if (parts_lo - 1 =? 0)%nat then Some (parts_lo - 1)%nat else None
                 else Some parts_lo);
              if (8 <=? parts_hi + parts_lo)%nat then None
              else Some (parts_hi, parts_lo, (8 - (parts_hi + parts_lo))%nat)
          | None =>
              if negb (length parts =? 8)%nat then None
              else if negb (truthy (List.nth 0 parts "")) then None
              else if negb (truthy (List.last parts "")) then None
              else Some (length parts, 0%nat, 0%nat)
          end;
        let '(parts_hi, parts_lo, parts_skipped) := counts in
        hi ← mapM parse_hextet (take parts_hi parts);
        lo ← mapM parse_hextet (drop (length parts - parts_lo) parts);
        Some (hextets_value
                (N.shiftl (hextets_value 0 hi) (16 * N.of_nat parts_skipped)) lo).

(** [_BaseV6._split_scope_id] *)
Definition split_scope_id (ip_str : string) : option (string * option string) :=
  match cut "%" ip_str with
  | None => Some (ip_str, None)
  | Some (addr, scope_id) =>
      if negb (truthy scope_id) || contains "%" scope_id then None
      else Some (addr, Some scope_id)
  end.

(** [IPv6Address(address)]: the address as an integer, and its scope. *)
Definition IPv6Address (address : string) : option (N * option string) :=
  if contains "/" address then None
  else
    split_address ← split_scope_id address;
    ip_int ← ipv6_int_from_string split_address.1;
    Some (ip_int, split_address.2).

Inductive ip :=
| IPv4 (ip_int : N)
| IPv6 (ip_int : N) (scope_id : option string).

Definition ip_address (address : string) : result ip :=
  match IPv4Address address with
  | Some ip_int => Ok (IPv4 ip_int)
  | None =>
      match IPv6Address address with
      | Some (ip_int, scope_id) => Ok (IPv6 ip_int scope_id)
      | None => Raise (ValueError (NotAnAddress address))
      end
  end.

End IpAddress.

(** ** [urllib.parse]: the URL functions the script imports

    [urlsplit], [urlparse], [urlunsplit], [urlunparse] and [urljoin] of the
    standard library, on [str] arguments.  [_checknetloc] is left out: on
    text of code points below 256 it never raises. *)
Module UrlLib.
Import PyStr.

Definition uses_relative : list string :=
  [""; "ftp"; "http"; "gopher"; "nntp"; "imap"; "wais"; "file"; "https";
   "shttp"; "mms"; "prospero"; "rtsp"; "rtspu"; "sftp"; "svn"; "svn+ssh";
   "ws"; "wss"].

Definition uses_netloc : list string :=
  [""; "ftp"; "http"; "gopher"; "nntp"; "telnet"; "imap"; "wais"; "file";
   "mms"; "https"; "shttp"; "snews"; "prospero"; "rtsp"; "rtspu"; "rsync";
   "svn"; "svn+ssh"; "sftp"; "nfs"; "git"; "git+ssh"; "ws"; "wss"].

Definition uses_params : list string :=
  [""; "ftp"; "hdl"; "prospero"; "http"; "imap"; "https"; "shttp"; "rtsp";
   "rtspu"; "sip"; "sips"; "mms"; "sftp"; "tel"].

Definition mem (s : string) (l : list string) : bool := bool_decide (s ∈ l).

(** Letters, digits, [+], [-] and [.] *)
Definition scheme_char (c : ascii) : bool :=
  is_lower c || is_upper c || is_digit c
  || bool_decide (N_of_ascii c ∈ [43; 45; 46]%N).

(** [_WHATWG_C0_CONTROL_OR_SPACE]: code points 0 to 32. *)
Definition c0_control_or_space (c : ascii) : bool := (N_of_ascii c <=? 32)%N.

(** [_UNSAFE_URL_BYTES_TO_REMOVE]: tab, CR and LF. *)
Definition unsafe_byte (c : ascii) : bool :=
  bool_decide (N_of_ascii c ∈ [9; 13; 10]%N).

Definition remove_unsafe (s : string) : string :=
  filter (fun c => negb (unsafe_byte c)) s.

Definition netloc_delim (c : ascii) : bool :=
  bool_decide (N_of_ascii c ∈ [47; 63; 35]%N).

(** [_splitnetloc(url, 2)] applied to the text after the leading [//]:
    the network location runs up to the first of [/], [?] and [#]. *)
Fixpoint splitnetloc (s : string) : string * string :=
  match s with
  | EmptyString => ("", "")
  | String a s' =>
      if netloc_delim a then ("", s)
      else let '(n, r) := splitnetloc s' in (String a n, r)
  end.

(** [re.match(r"\Av[a-fA-F0-9]+\..+\Z", hostname)]: after the [v], one or
    more hexadecimal digits, a dot, and one or more characters other than
    LF up to the end. *)
Definition is_ipvfuture (hostname : string) : bool :=
  match hostname with
  | String "v" rest =>
      let after_digits := lstrip IpAddress.is_hex_digit rest in
      negb (String.eqb after_digits rest)
      && match after_digits with
         | String "." tail => truthy tail && negb (contains LF tail)
         | _ => false
         end
  | _ => false
  end.

(** [_check_bracketed_host] *)
Definition check_bracketed_host (hostname : string) : result unit :=
  if startswith "v" hostname
  then
    if is_ipvfuture hostname then Ok tt
    else Raise (ValueError InvalidIPvFuture)
  else
    ip ← IpAddress.ip_address hostname;
    match ip with
    | IpAddress.IPv4 _ => Raise (ValueError IPv4InBrackets)
    | IpAddress.IPv6 _ _ => Ok tt
    end.

(** [_check_bracketed_netloc] *)
Definition check_bracketed_netloc (netloc : string) : result unit :=
  let hostname_and_port :=
    match rcut "@" netloc with Some (_, tail) => tail | None => netloc end in
  match cut "[" hostname_and_port with
  | Some (before_bracket, bracketed) =>
      if truthy before_bracket then Raise (ValueError InvalidIPv6URL)
      else
        let '(hostname, port) :=
          match cut "]" bracketed with
          | Some (h, p) => (h, p)
          | None => (bracketed, "")
          end in
        if truthy port && negb (startswith ":" port)
        then Raise (ValueError InvalidIPv6URL)
        else check_bracketed_host hostname
  | None =>
      let hostname :=
        match cut ":" hostname_and_port with
        | Some (h, _) => h
        | None => hostname_and_port
        end in
      check_bracketed_host hostname
  end.

Record SplitResult := mkSplit {
  s_scheme : string; s_netloc : string; s_path : string;
  s_query : string; s_fragment : string }.

Record ParseResult := mkParse {
  scheme : string; netloc : string; path : string;
  params : string; query : string; fragment : string }.

(** The two checks of [urlsplit] on the network location. *)
Definition check_brackets (netloc : string) : result unit :=
  if (contains "[" netloc && negb (contains "]" netloc))
     || (contains "]" netloc && negb (contains "[" netloc))
  then Raise (ValueError InvalidIPv6URL)
  else if contains "[" netloc && contains "]" netloc
  then check_bracketed_netloc netloc
  else Ok tt.

Definition urlsplit (url0 scheme0 : string) : result SplitResult :=
  let url := remove_unsafe (lstrip c0_control_or_space url0) in
  let scheme := remove_unsafe (strip c0_control_or_space scheme0) in
  let '(scheme, url) :=
    match cut ":" url with
    | Some (String c0 pre', rest) =>
        if is_ascii_alpha c0 && forallb scheme_char (String c0 pre')
        then (lower (String c0 pre'), rest)
        else (scheme, url)
    | _ => (scheme, url)
    end in
  '(netloc, url) ←
    match url with
    | String "/" (String "/" rest) =>
        let '(netloc, url) := splitnetloc rest in
        check_brackets netloc;;
        Ok (netloc, url)
    | _ => Ok ("", url)
    end;
  let '(url, fragment) :=
    match cut "#" url with Some (u, f) => (u, f) | None => (url, "") end in
  let '(url, query) :=
    match cut "?" url with Some (u, q) => (u, q) | None => (url, "") end in
  Ok (mkSplit scheme netloc url query fragment).

Definition splitparams (url : string) : string * string :=
  match rcut "/" url with
  | Some (head, tail) =>
      match cut ";" tail with
      | Some (x, y) => (head +:+ String "/" x, y)
      | None => (url, "")
      end
  | None =>
      match cut ";" url with
      | Some (x, y) => (x, y)
      | None => (url, "")
      end
  end.

Definition urlparse (url scheme0 : string) : result ParseResult :=
  r ← urlsplit url scheme0;
  let '(url, params) :=
    if mem (s_scheme r) uses_params && contains ";" (s_path r)
    then splitparams (s_path r) else (s_path r, "") in
  Ok (mkParse (s_scheme r) (s_netloc r) url params (s_query r) (s_fragment r)).

Definition urlunsplit (r : SplitResult) : string :=
  let url := s_path r in
  let url :=
    if truthy (s_netloc r)
       || (truthy (s_scheme r) && mem (s_scheme r) uses_netloc
           && negb (startswith "//" url))
    then
      let url := if truthy url && negb (startswith "/" url)
                 then "/" +:+ url else url in
      "//" +:+ s_netloc r +:+ url
    else url in
  let url := if truthy (s_scheme r) then s_scheme r +:+ ":" +:+ url else url in
  let url := if truthy (s_query r) then url +:+ "?" +:+ s_query r else url in
  if truthy (s_fragment r) then url +:+ "#" +:+ s_fragment r else url.

Definition urlunparse (p : ParseResult) : string :=
  let url := if truthy (params p) then path p +:+ ";" +:+ params p else path p in
  urlunsplit (mkSplit (scheme p) (netloc p) url (query p) (fragment p)).

(** [segments[1:-1] = filter(None, segments[1:-1])] *)
Definition drop_empty_inner (segments : list string) : list string :=
  match segments with
  | [] => []
  | x :: rest =>
      match rest with
      | [] => [x]
      | _ => x :: List.filter truthy (removelast rest) ++ [List.last rest ""]
      end
  end.

(** The loop over the segments: [..] pops the path built so far (popping
    the empty path does nothing), [.] is skipped. *)
Fixpoint resolve (resolved_path segments : list string) : list string :=
  match segments with
  | [] => resolved_path
  | seg :: segs =>
      if String.eqb seg ".." then resolve (removelast resolved_path) segs
      else if String.eqb seg "." then resolve resolved_path segs
      else resolve (resolved_path ++ [seg]) segs
  end.

Definition urljoin (base url : string) : result string :=
  if negb (truthy base) then Ok url
  else if negb (truthy url) then Ok base
  else
    b ← urlparse base "";
    u ← urlparse url (scheme b);
    if negb (String.eqb (scheme u) (scheme b)) || negb (mem (scheme u) uses_relative)
    then Ok url
    else if mem (scheme u) uses_netloc && truthy (netloc u)
    then Ok (urlunparse u)
    else
      let netloc' := if mem (scheme u) uses_netloc then netloc b else netloc u in
      if negb (truthy (path u)) && negb (truthy (params u))
      then Ok (urlunparse (mkParse (scheme u) netloc' (path b) (params b)
                             (if truthy (query u) then query u else query b)
                             (fragment u)))
      else
        let base_parts := split "/" (path b) in
        let base_parts :=
          if String.eqb (List.last base_parts "") "" then base_parts
          else removelast base_parts in
        let segments :=
          if startswith "/" (path u) then split "/" (path u)
          else drop_empty_inner (base_parts ++ split "/" (path u)) in
        let resolved_path := resolve [] segments in
        let resolved_path :=
          if mem (List.last segments "") ["."; ".."]
          then resolved_path ++ [""] else resolved_path in
        let joined := join "/" resolved_path in
        Ok (urlunparse (mkParse (scheme u) netloc'
                          (if truthy joined then joined else "/")
                          (params u) (query u) (fragment u))).

End UrlLib.

(** ** [posixpath]: [os.path.join] with two arguments and [os.path.basename] *)
Module PosixPath.
Import PyStr.

Definition join (a b : string) : string :=
  if startswith "/" b then b
  else if negb (truthy a) || endswith "/" a then a +:+ b
  else a +:+ "/" +:+ b.

Definition basename (p : string) : string :=
  match rcut "/" p with
  | Some (_, tail) => tail
  | None => p
  end.

End PosixPath.



Definition nl : string := String PyStr.LF "".

(** ** The world the script acts on, and its environment *)

(** The values the script's functions return: every one of them returns
    [None]; integers are there to compare a returned value with a count. *)
Inductive pyval :=
| PyNone
| PyInt (z : Z).

(** Directories are known by the path the script names them with; each maps
    the names of its files to their contents.  [files] are the regular files
    of the current directory, which is not itself among [dirs]: a path that
    leads back to it ([.], say) is not told from a directory of its own.
    [stdout] holds the printed lines, [bar] the progress bar's count and
    total. *)
Record world := World {
  dirs : gmap string (gmap string string);
  files : gmap string string;
  stdout : list string;
  bar : nat * nat }.

Inductive response :=
| Body (b : string)
| NetworkFailure (msg : string).

Inductive fs_op := OpMakedirs | OpOpen | OpListdir | OpRmtree.

Inductive process :=
| CannotStart (msg : string)
| Exits (returncode : Z) (dirs' : gmap string (gmap string string))
        (files' : gmap string string).

(** What the script cannot decide: the answer of the network to a GET, the
    faults of the file system (permissions, full disk, ...), what the
    external program does, the order in which the pool's tasks complete, and
    the text [str(e)] of an exception. *)
Record env := Env {
  session_get : string → response;
  fs_fault : fs_op → string → option string;
  subprocess : list string → world → process;
  sched : list nat;
  str_exn : exn → string }.

(** Computations: state passing, with exceptions as results. *)
Definition M (A : Type) : Type := world → result A * world.

Definition ret {A} (a : A) : M A := fun w => (Ok a, w).

Definition bind {A B} (k : A → M B) (m : M A) : M B := fun w =>
  match m w with
  | (Ok a, w') => k a w'
  | (Raise e, w') => (Raise e, w')
  end.

Global Instance M_ret : MRet M := @ret.
Global Instance M_bind : MBind M := @bind.

Definition raise {A} (e : exn) : M A := fun w => (Raise e, w).

Definition state {A} (f : world → result A * world) : M A := f.

(** A computation that leaves the world alone: it returns or raises. *)
Definition lift {A} (r : result A) : M A := fun w => (r, w).

(** [try: m  except <class> as e: h e], for the exceptions [catches] holds of. *)
Definition try_except {A} (m : M A) (catches : exn → bool) (h : exn → M A) : M A :=
  fun w =>
    match m w with
    | (Ok a, w') => (Ok a, w')
    | (Raise e, w') => if catches e then h e w' else (Raise e, w')
    end.

Definition is_Exception (e : exn) : bool := true.

Definition is_CalledProcessError (e : exn) : bool :=
  match e with CalledProcessError _ _ => true | _ => false end.

Definition print (s : string) : M unit := fun w =>
  (Ok tt, World (dirs w) (files w) (stdout w ++ [s]) (bar w)).

Definition set_dirs (d : gmap string (gmap string string)) (w : world) : world :=
  World d (files w) (stdout w) (bar w).

Definition set_files (f : gmap string string) (w : world) : world :=
  World (dirs w) f (stdout w) (bar w).

(** A path names entry [n] of directory [d] when it reads [d/n], and a file
    of the current directory when it has no separator. *)
Definition locate (p : string) : option string * string :=
  match PyStr.rcut "/" p with
  | Some (d, n) => (Some d, n)
  | None => (None, p)
  end.

Definition names_a_directory (n : string) : bool :=
  bool_decide (n ∈ [""; "."; ".."]).

Section Script.
Context (E : env).

(** [session.get(url)] and the body of its response ([.text], [.content]). *)
Definition get (url : string) : M string :=
  match session_get E url with
  | Body b => ret b
  | NetworkFailure msg => raise (RequestException msg)
  end.

Definition fault (op : fs_op) (p : string) : M unit :=
  match fs_fault E op p with
  | Some msg => raise (OSError msg)
  | None => ret tt
  end.

(** [os.makedirs(p, exist_ok=True)]; the empty path names nothing that
    could be made. *)
Definition makedirs (p : string) : M unit :=
  fault OpMakedirs p;;
  state (fun w =>
    if negb (PyStr.truthy p) then (Raise (OSError "No such file or directory"), w)
    else
      match dirs w !! p with
      | Some _ => (Ok tt, w)
      | None =>
          match files w !! p with
          | Some _ => (Raise (OSError "File exists"), w)
          | None => (Ok tt, set_dirs (<[p := ∅]> (dirs w)) w)
          end
      end).

(** [open(p, 'w')] and [open(p, 'wb')]: the file is created, or emptied. *)
Definition open_w (p : string) : M unit :=
  fault OpOpen p;;
  state (fun w =>
    match locate p with
    | (Some d, n) =>
        match dirs w !! d with
        | None => (Raise (OSError "No such file or directory"), w)
        | Some entries =>
            if names_a_directory n then (Raise (OSError "Is a directory"), w)
            else (Ok tt, set_dirs (<[d := <[n := ""]> entries]> (dirs w)) w)
        end
    | (None, n) =>
        if names_a_directory n || bool_decide (is_Some (dirs w !! n))
        then (Raise (OSError "Is a directory"), w)
        else (Ok tt, set_files (<[n := ""]> (files w)) w)
    end).

(** [f.write(s)] on the file opened at [p]. *)
Definition file_write (p s : string) : M unit := fun w =>
  match locate p with
  | (Some d, n) =>
      (Ok tt, set_dirs (alter (alter (fun c => c +:+ s) n) d (dirs w)) w)
  | (None, n) =>
      (Ok tt, set_files (alter (fun c => c +:+ s) n (files w)) w)
  end.

(** [os.listdir(p)]: the names in the directory, in no particular order. *)
Definition listdir (p : string) : M (list string) :=
  fault OpListdir p;;
  state (fun w =>
    match dirs w !! p with
    | Some entries => (Ok (elements (dom entries)), w)
    | None => (Raise (OSError "No such file or directory"), w)
    end).

(** [shutil.rmtree(p)] *)
Definition rmtree (p : string) : M unit :=
  fault OpRmtree p;;
  state (fun w =>
    match dirs w !! p with
    | Some _ => (Ok tt, set_dirs (delete p (dirs w)) w)
    | None => (Raise (OSError "No such file or directory"), w)
    end).

(** *** [download_ts_segment] *)
Definition download_ts_segment (ts_url output_folder : string) : M pyval :=
  try_except
    (parsed ← lift (UrlLib.urlparse ts_url "");
     let filename := PosixPath.basename (UrlLib.path parsed) in
     let output_path := PosixPath.join output_folder filename in
     ts_content ← get ts_url;
     open_w output_path;;
     file_write output_path ts_content;;
     ret PyNone)
    is_Exception
    (fun e =>
       print ("Failed to download " +:+ ts_url +:+ ": " +:+ str_exn E e);;
       ret PyNone).

(** *** [download_m3u8] *)

(** The list comprehension of line 45, over the lines of the playlist: the
    lines are taken in order, and the first [urljoin] that raises ends the
    comprehension with its exception. *)
Fixpoint chunk_refs (m3u8_url : string) (lines : list string)
  : result (list string) :=
  match lines with
  | [] => Ok []
  | line :: lines' =>
      if PyStr.truthy line && negb (PyStr.startswith "#" line)
      then
        ts_url ← UrlLib.urljoin m3u8_url line;
        ts_urls ← chunk_refs m3u8_url lines';
        Ok (ts_url :: ts_urls)
      else chunk_refs m3u8_url lines'
  end.

Definition ts_urls (m3u8_url m3u8_content : string) : result (list string) :=
  let lines := PyStr.splitlines m3u8_content in
  chunk_refs m3u8_url lines.

(** The pool runs the submitted tasks to completion in an order the script
    does not control: each number of the schedule picks, among the tasks
    still to complete, the next one to do so.  Tasks are taken as atomic: a
    task runs from its start to its end before the next one starts, so the
    steps of two units are never interleaved; the width of the pool
    ([max_workers=10]) has no counterpart here. *)
Fixpoint completion_order {A} (schedule : list nat) (l : list A) : list A :=
  match schedule with
  | [] => l
  | k :: schedule' =>
      match l !! (k mod length l) with
      | Some x => x :: completion_order schedule' (delete (k mod length l) l)
      | None => l
      end
  end.

(** Every future holds what its task returned or raised. *)
Fixpoint run_all (tasks : list (M pyval)) (w : world) : list (result pyval) * world :=
  match tasks with
  | [] => ([], w)
  | t :: ts =>
      let '(r, w1) := t w in
      let '(rs, w2) := run_all ts w1 in
      (r :: rs, w2)
  end.

(** [with ThreadPoolExecutor(...) as executor: futures = [executor.submit(...)]]:
    leaving the block waits for every task; the futures are taken in the
    order of completion. *)
Definition thread_pool (tasks : list (M pyval)) : M (list (result pyval)) :=
  state (fun w =>
    let '(fs, w') := run_all (completion_order (sched E) tasks) w in (Ok fs, w')).

(** [future.result()] *)
Definition future_result (f : result pyval) : M pyval :=
  match f with
  | Ok v => ret v
  | Raise e => raise e
  end.

Definition tqdm (total : nat) : M unit := fun w =>
  (Ok tt, World (dirs w) (files w) (stdout w) (0, total)).

Definition progress_bar_update (n : nat) : M unit := fun w =>
  (Ok tt, World (dirs w) (files w) (stdout w) (fst (bar w) + n, snd (bar w))).

(** [for future in as_completed(futures): future.result(); progress_bar.update(1)] *)
Fixpoint for_as_completed (futures : list (result pyval)) : M unit :=
  match futures with
  | [] => ret tt
  | f :: fs =>
      future_result f;;
      progress_bar_update 1;;
      for_as_completed fs
  end.

Definition download_m3u8 (m3u8_url output_folder : string) : M pyval :=
  m3u8_content ← get m3u8_url;
  makedirs output_folder;;
  ts_urls ← lift (ts_urls m3u8_url m3u8_content);
  let tasks :=
    List.map (fun ts_url => download_ts_segment ts_url output_folder) ts_urls in
  futures ← thread_pool tasks;
  tqdm (length futures);;
  for_as_completed futures;;
  print ("Downloaded all segments to the '" +:+ output_folder
         +:+ "' folder successfully.");;
  ret PyNone.

(** *** [create_file_list] *)

(** [sorted(l)] on strings: ascending by code point. *)
Definition sorted (l : list string) : list string := merge_sort String.le l.

Definition ts_files_of (names : list string) : list string :=
  sorted (List.filter (PyStr.endswith ".ts") names).

Definition manifest_record (output_folder ts_file : string) : string :=
  "file '" +:+ PosixPath.join output_folder ts_file +:+ "'" +:+ nl.

Fixpoint for_each {A} (l : list A) (body : A → M unit) : M unit :=
  match l with
  | [] => ret tt
  | x :: l' => body x;; for_each l' body
  end.

Definition create_file_list (output_folder list_file_name : string) : M pyval :=
  names ← listdir output_folder;
  let ts_files := ts_files_of names in
  open_w list_file_name;;
  for_each ts_files
    (fun ts_file => file_write list_file_name (manifest_record output_folder ts_file));;
  print ("Created " +:+ list_file_name +:+ " with "
         +:+ PyStr.str_nat (length ts_files) +:+ " files listed.");;
  ret PyNone.

(** *** [execute_ffmpeg_command] *)
Definition ffmpeg_command (input_file output_file : string) (compress : bool)
  : list string :=
  let command := ["ffmpeg"; "-f"; "concat"; "-safe"; "0"; "-i"; input_file] in
  let command :=
    if compress
    then command ++ ["-c:v"; "libx264"; "-crf"; "23"; "-preset"; "medium";
                     "-c:a"; "aac"; "-b:a"; "128k"]
    else command ++ ["-c"; "copy"] in
  command ++ [output_file].

(** [subprocess.run(command, check=True, capture_output=False, text=True)]:
    nothing is captured, so the [CalledProcessError] carries no [stderr]. *)
Definition subprocess_run (command : list string) : M unit := fun w =>
  match subprocess E command w with
  | CannotStart msg => (Raise (OSError msg), w)
  | Exits rc d f =>
      let w' := set_files f (set_dirs d w) in
      if (rc =? 0)%Z then (Ok tt, w')
      else (Raise (CalledProcessError rc None), w')
  end.

Definition str_option (o : option string) : string :=
  match o with Some s => s | None => "None" end.

Definition exn_stderr (e : exn) : option string :=
  match e with CalledProcessError _ s => s | _ => None end.

Definition execute_ffmpeg_command (input_file output_file : string)
    (compress : bool) : M pyval :=
  let command := ffmpeg_command input_file output_file compress in
  try_except
    (subprocess_run command;;
     print ("Successfully created " +:+ output_file))
    is_CalledProcessError
    (fun e =>
       print ("Error executing ffmpeg command: " +:+ str_exn E e);;
       print ("ffmpeg stderr output: " +:+ str_option (exn_stderr e)));;
  ret PyNone.

(** *** The script's body *)
Record args := Args { url : string; output : string; compress : bool }.

Definition main (a : args) : M unit :=
  download_m3u8 (url a) "output";;
  create_file_list "output" "file_list.txt";;
  execute_ffmpeg_command "file_list.txt" (output a) (compress a);;
  (if compress a then print "Video compressed using libx264 and aac audio."
   else ret tt);;
  rmtree "output".

End Script.

(** The exit status of the interpreter: 0 when the script runs to its end,
    1 when an exception is left uncaught. *)
Definition exit_status {A} (r : result A) : Z :=
  match r with
  | Ok _ => 0
  | Raise _ => 1
  end.

Definition empty_world : world := World ∅ ∅ [] (0, 0).

(** ** What the claims speak of *)

(** A playlist line is a directive when it starts with the marker [#]. *)
Definition is_directive (line : string) : Prop := ∃ rest, line = String "#" rest.

(** The lines that name a chunk: neither blank nor a directive. *)
Definition names_chunk (line : string) : Prop := line ≠ "" ∧ ¬ is_directive line.

Global Instance is_directive_dec line : Decision (is_directive line).
Proof.
  destruct line as [|c rest].
  - right. intros [r Hr]. discriminate.
  - destruct (decide (c = "#"%char)) as [->|Hc].
    + left. by exists rest.
    + right. intros [r Hr]. congruence.
Defined.

Global Instance names_chunk_dec line : Decision (names_chunk line).
Proof. unfold names_chunk. apply _. Defined.




(** An absolute URL written [scheme://host/path?query], the query being
    optional, in the form in which the library writes one: the scheme is in
    lower case, the host is not empty, host, path and query hold none of the
    delimiters that would end them early, and no tab, CR or LF; the host
    holds no bracket. *)
Definition host_char (c : ascii) : bool :=
  negb (UrlLib.netloc_delim c) && negb (UrlLib.unsafe_byte c)
  && negb (bool_decide (N_of_ascii c ∈ [91; 93]%N)).

Definition path_char (c : ascii) : bool :=
  negb (bool_decide (N_of_ascii c ∈ [63; 35; 59]%N)) && negb (UrlLib.unsafe_byte c).

Definition query_char (c : ascii) : bool :=
  negb (bool_decide (N_of_ascii c = 35%N)) && negb (UrlLib.unsafe_byte c).

Definition plain_scheme (scheme : string) : bool :=
  match scheme with
  | EmptyString => false
  | String c _ =>
      PyStr.is_ascii_alpha c && PyStr.forallb UrlLib.scheme_char scheme
      && String.eqb (PyStr.lower scheme) scheme
  end.

Definition plain_absolute (scheme host path query : string) : Prop :=
  plain_scheme scheme = true
  ∧ PyStr.truthy host = true
  ∧ PyStr.forallb host_char host = true
  ∧ (path = "" ∨ PyStr.startswith "/" path = true)
  ∧ PyStr.forallb path_char path = true
  ∧ PyStr.forallb query_char query = true.

(** What follows the host: the path, and the query when there is one. *)
Definition url_tail (path query : string) : string :=
  path +:+ (if PyStr.truthy query then "?" +:+ query else "").

Definition absolute_url (scheme host path query : string) : string :=
  scheme +:+ "://" +:+ host +:+ url_tail path query.

(** The text made of the given pieces, one after the other. *)
Definition concat_all (l : list string) : string := foldr String.append "" l.

(** The name has the chunk extension. *)
Definition is_ts (f : string) : Prop := PyStr.endswith ".ts" f = true.


(** The name under which a chunk is saved: the last segment of the path of
    its URL (line 20).  A URL that [urlparse] rejects has none, and nothing
    is saved for it; its name is taken to be empty. *)
Definition chunk_name (ts_url : string) : string :=
  match UrlLib.urlparse ts_url "" with
  | Ok parsed => PosixPath.basename (UrlLib.path parsed)
  | Raise _ => ""
  end.

(** The content of file [n] of directory [d], if there is one. *)
Definition file_content (w : world) (d n : string) : option string :=
  dirs w !! d ≫= (.!! n).

(** File [n] is in directory [d]. *)
Definition has_entry (w : world) (d n : string) : Prop :=
  ∃ entries, dirs w !! d = Some entries ∧ n ∈ dom entries.

(** From [w] to [w'] no directory and no file of a directory has gone. *)
Definition keeps_entries (w w' : world) : Prop :=
  ∀ d entries, dirs w !! d = Some entries →
    ∃ entries', dirs w' !! d = Some entries' ∧ dom entries ⊆ dom entries'.

(** A task of the pool that returns [None] whatever happens, and removes
    nothing. *)
Definition well_behaved (t : M pyval) : Prop :=
  ∀ w, ∃ w', t w = (Ok PyNone, w') ∧ keeps_entries w w'.

(** An environment without faults, in which the transcoder succeeds. *)
Definition quiet_env : env :=
  Env (fun u => Body ("bytes of " +:+ u)) (fun _ _ => None)
      (fun _ w => Exits 0 (dirs w) (files w)) []
      (fun e => match e with
                | RequestException m | OSError m => m
                | CalledProcessError _ _ => "non-zero exit status"
                | ValueError _ => "invalid URL"
                end).

(** An environment in which the playlist lists one chunk, every fetch
    succeeds and the transcoder exits with status 1. *)
Definition failing_encoder_env : env :=
  Env (fun u =>
         if String.eqb u "https://host/path/playlist.m3u8"
         then Body ("seg000.ts" +:+ nl)
         else Body ("bytes of " +:+ u))
      (fun _ _ => None)
      (fun _ w => Exits 1 (dirs w) (files w)) []
      (fun e => match e with
                | RequestException m | OSError m => m
                | CalledProcessError _ _ => "non-zero exit status"
                | ValueError _ => "invalid URL"
                end).

(** A working directory with three chunks and a file of another kind. *)
Definition three_chunks : gmap string string :=
  <["seg001.ts" := "b"]> (<["seg002.ts" := "c"]> (<["cover.jpg" := "j"]>
    (<["seg000.ts" := "a"]> ∅))).

Definition three_chunks_world : world := World {["output" := three_chunks]} ∅ [] (0, 0).



(** An environment in which the playlist cannot be fetched. *)
Definition unreachable_env : env :=
  Env (fun _ => NetworkFailure "connection refused") (fun _ _ => None)
      (fun _ w => Exits 0 (dirs w) (files w)) [] (fun _ => "error").

(** An environment in which one chunk of three cannot be fetched. *)
Definition one_bad_chunk_env : env :=
  Env (fun u =>
         if String.eqb u "https://host/path/playlist.m3u8"
         then Body ("seg000.ts" +:+ nl +:+ "seg001.ts" +:+ nl +:+ "seg002.ts" +:+ nl)
         else if String.eqb u "https://host/path/seg001.ts"
         then NetworkFailure "timed out"
         else Body ("bytes of " +:+ u))
      (fun _ _ => None)
      (fun _ w => Exits 0 (dirs w) (files w))
      [1; 1]
      (fun e => match e with
                | RequestException m | OSError m => m
                | CalledProcessError _ _ => "non-zero exit status"
                | ValueError _ => "invalid URL"
                end).

(** The environment [E] with another completion order for the pool. *)
Definition with_sched (E : env) (schedule : list nat) : env :=
  Env (session_get E) (fs_fault E) (subprocess E) schedule (str_exn E).

(** The bytes the unit for [ts_url] saves into an existing [output_folder]:
    those the fetch returns, unless the fetch fails, the file cannot be
    opened, or the chunk's name is that of a directory (as is the empty
    name of a URL that does not parse). *)
Definition saved_bytes (E : env) (output_folder ts_url : string) : option string :=
  match session_get E ts_url with
  | Body b =>
      match fs_fault E OpOpen (PosixPath.join output_folder (chunk_name ts_url)) with
      | Some _ => None
      | None => if names_a_directory (chunk_name ts_url) then None else Some b
      end
  | NetworkFailure _ => None
  end.

(** The folder's files after the unit for [ts_url] has run. *)
Definition save (E : env) (output_folder : string) (entries : gmap string string)
    (ts_url : string) : gmap string string :=
  match saved_bytes E output_folder ts_url with
  | Some b => <[chunk_name ts_url := b]> entries
  | None => entries
  end.

(** A folder path that names a directory beside the current one: not
    empty, and without a trailing separator. *)
Definition plain_folder (output_folder : string) : Prop :=
  PyStr.truthy output_folder = true ∧ PyStr.endswith "/" output_folder = false.

(** The text with every LF written CR LF. *)
Fixpoint to_crlf (s : string) : string :=
  match s with
  | EmptyString => ""
  | String c s' =>
      if Ascii.eqb c PyStr.LF then String PyStr.CR (String PyStr.LF (to_crlf s'))
      else String c (to_crlf s')
  end.

(** A working directory left by an earlier run, and a playlist of two
    entries saved under the same name. *)
Definition stale_world : world :=
  World {["output" := {["old.ts" := "stale"]}]} ∅ [] (0, 0).



(** An environment in which the transcoder cannot be started. *)
Definition no_ffmpeg_env : env :=
  Env (fun u =>
         if String.eqb u "https://host/path/playlist.m3u8"
         then Body ("seg000.ts" +:+ nl)
         else Body ("bytes of " +:+ u))
      (fun _ _ => None)
      (fun _ _ => CannotStart "No such file or directory: 'ffmpeg'") []
      (fun e => match e with
                | RequestException m | OSError m => m
                | CalledProcessError _ _ => "non-zero exit status"
                | ValueError _ => "invalid URL"
                end).

(** A name that stands for one entry of a directory: it holds no separator
    and is none of the empty name, [.] and [..].  A folder given by such a
    name is a directory of the current directory, and its files are not
    files of the current directory. *)
Definition plain_name (n : string) : Prop :=
  PyStr.contains "/" n = false ∧ names_a_directory n = false.

(** A line that holds none of the characters at which [splitlines] ends a
    line. *)
Definition boundary_free (line : string) : Prop :=
  PyStr.forallb (fun c => negb (PyStr.is_line_boundary c)) line = true.

(** The text made of the given lines, each ended by a line feed. *)
Definition text_of (lines : list string) : string :=
  concat_all ((fun line => line +:+ nl) <$> lines).

(** The path [/d1/.../dk/file]. *)
Definition path_of (folders : list string) (file : string) : string :=
  concat_all ((fun d => "/" +:+ d) <$> folders) +:+ "/" +:+ file.

(** A playlist entry that is a bare file name: it is none of the empty
    name, [.] and [..], holds none of [/ : ? # ;], no tab, CR or LF, and
    does not start with a space or a control character. *)
Definition file_name_char (c : ascii) : bool :=
  path_char c && negb (bool_decide (N_of_ascii c ∈ [47; 58]%N)).

Definition bare_file_name (name : string) : Prop :=
  names_a_directory name = false
  ∧ PyStr.forallb file_name_char name = true
  ∧ PyStr.lstrip UrlLib.c0_control_or_space name = name.

(** An environment whose playlist has an entry with a bracket that is not
    closed in its host. *)
Definition malformed_entry_env : env :=
  Env (fun u =>
         if String.eqb u "https://host/path/playlist.m3u8"
         then Body ("seg000.ts" +:+ nl +:+ "//[bad/seg001.ts" +:+ nl)
         else Body ("bytes of " +:+ u))
      (fun _ _ => None)
      (fun _ w => Exits 0 (dirs w) (files w)) []
      (fun e => match e with
                | RequestException m | OSError m => m
                | CalledProcessError _ _ => "non-zero exit status"
                | ValueError _ => "invalid URL"
                end).

(** * Facts *)

(** ** Strings *)

Local Arguments String.append !_ _ /.

Lemma app_assoc_str (a b c : string) : (a +:+ b) +:+ c = a +:+ (b +:+ c).
Proof. induction a as [|x a IH]; simpl; [done|]. by rewrite IH. Qed.

Lemma app_empty_r (a : string) : a +:+ "" = a.
Proof. induction a as [|x a IH]; simpl; [done|]. by rewrite IH. Qed.

Lemma contains_app c (a b : string) :
  PyStr.contains c (a +:+ b) = PyStr.contains c a || PyStr.contains c b.
Proof.
  induction a as [|x a IH]; simpl; [done|].
  rewrite IH. by rewrite orb_assoc.
Qed.

Lemma startswith_directive (line : string) :
  PyStr.startswith "#" line = bool_decide (is_directive line).
Proof.
  case_bool_decide as Hd.
  - destruct Hd as [rest ->]. reflexivity.
  - destruct line as [|c rest]; [done|]. cbn [PyStr.startswith].
    rewrite andb_true_r. destruct (Ascii.eqb_spec "#" c) as [<-|Hne]; [|done].
    destruct Hd. by exists rest.
Qed.

Lemma keeps_chunk_lines (line : string) :
  PyStr.truthy line && negb (PyStr.startswith "#" line)
  = bool_decide (names_chunk line).
Proof.
  rewrite startswith_directive. unfold names_chunk.
  destruct line as [|c rest]; cbn [PyStr.truthy andb].
  - symmetry. apply bool_decide_eq_false_2. by intros [Hne _].
  - destruct (decide (is_directive (String c rest))) as [Hd|Hd].
    + rewrite (bool_decide_eq_true_2 _ Hd). symmetry.
      apply bool_decide_eq_false_2. by intros [_ Hnd].
    + rewrite (bool_decide_eq_false_2 _ Hd). symmetry.
      by apply bool_decide_eq_true_2.
Qed.

Lemma list_filter_stdpp {A} (p : A → bool) (P : A → Prop) `{∀ x, Decision (P x)}
    (l : list A) :
  (∀ x, p x = bool_decide (P x)) → List.filter p l = filter P l.
Proof.
  intros Hp. induction l as [|x l IH]; [done|].
  simpl. rewrite Hp, filter_cons, IH.
  destruct (decide (P x)) as [HP|HP].
  - by rewrite (bool_decide_eq_true_2 _ HP).
  - by rewrite (bool_decide_eq_false_2 _ HP).
Qed.

(** ** Computations that may raise *)

Lemma result_bind_run {A B} (r : result A) (k : A → result B) :
  r ≫= k = match r with
           | Ok a => k a
           | Raise e => Raise e
           end.
Proof. reflexivity. Qed.

Lemma chunk_refs_cons (m3u8_url line : string) (lines : list string) :
  chunk_refs m3u8_url (line :: lines)
  = if bool_decide (names_chunk line)
    then
      match UrlLib.urljoin m3u8_url line with
      | Ok ts_url =>
          match chunk_refs m3u8_url lines with
          | Ok ts_urls => Ok (ts_url :: ts_urls)
          | Raise e => Raise e
          end
      | Raise e => Raise e
      end
    else chunk_refs m3u8_url lines.
Proof. cbn [chunk_refs]. by rewrite keeps_chunk_lines. Qed.

(** The comprehension sees the kept lines only. *)
Lemma chunk_refs_filter (m3u8_url : string) (lines : list string) :
  chunk_refs m3u8_url lines = chunk_refs m3u8_url (filter names_chunk lines).
Proof.
  induction lines as [|line lines IH]; [done|].
  rewrite filter_cons, chunk_refs_cons.
  destruct (decide (names_chunk line)) as [Hk|Hk].
  - rewrite (bool_decide_eq_true_2 _ Hk), chunk_refs_cons,
      (bool_decide_eq_true_2 _ Hk). by rewrite IH.
  - by rewrite (bool_decide_eq_false_2 _ Hk).
Qed.

(** It returns when every kept line resolves, with the resolutions in the
    order of the lines. *)
Lemma chunk_refs_Ok (m3u8_url : string) (lines urls : list string) :
  chunk_refs m3u8_url lines = Ok urls
  ↔ Forall2 (fun line ts_url => UrlLib.urljoin m3u8_url line = Ok ts_url)
      (filter names_chunk lines) urls.
Proof.
  revert urls. induction lines as [|line lines IH]; intros urls.
  - cbn. split; [intros [= <-]; constructor|by intros ->%Forall2_nil_inv_l].
  - rewrite filter_cons, chunk_refs_cons.
    destruct (decide (names_chunk line)) as [Hk|Hk].
    + rewrite (bool_decide_eq_true_2 _ Hk).
      destruct (UrlLib.urljoin m3u8_url line) as [u|e] eqn:Hu.
      * destruct (chunk_refs m3u8_url lines) as [us|e] eqn:Hus.
        -- split.
           ++ intros [= <-]. constructor; [done|]. by apply IH.
           ++ intros (u' & us' & Hu' & Hus' & ->)%Forall2_cons_inv_l.
              rewrite Hu in Hu'. injection Hu' as <-.
              apply IH in Hus'. by injection Hus' as <-.
        -- split; [done|].
           intros (u' & us' & _ & Hus' & ->)%Forall2_cons_inv_l.
           by apply IH in Hus'.
      * split; [done|].
        intros (u' & us' & Hu' & _ & ->)%Forall2_cons_inv_l.
        by rewrite Hu in Hu'.
    + rewrite (bool_decide_eq_false_2 _ Hk). apply IH.
Qed.

(** It raises what the first kept line that does not resolve raises. *)
Lemma chunk_refs_Raise (m3u8_url : string) (lines : list string) (e : exn) :
  chunk_refs m3u8_url lines = Raise e →
  ∃ line, line ∈ filter names_chunk lines ∧ UrlLib.urljoin m3u8_url line = Raise e.
Proof.
  induction lines as [|line lines IH]; [done|].
  rewrite filter_cons, chunk_refs_cons.
  destruct (decide (names_chunk line)) as [Hk|Hk].
  - rewrite (bool_decide_eq_true_2 _ Hk).
    destruct (UrlLib.urljoin m3u8_url line) as [u|e'] eqn:Hu.
    + destruct (chunk_refs m3u8_url lines) as [us|e'] eqn:Hus; [done|].
      intros [= ->]. destruct (IH eq_refl) as (l & Hl & Hr).
      exists l. split; [by apply list_elem_of_further|done].
    + intros [= ->]. exists line. split; [apply list_elem_of_here|done].
  - rewrite (bool_decide_eq_false_2 _ Hk). exact IH.
Qed.

Lemma splitlines_go_line (cur line rest : string) :
  boundary_free line →
  PyStr.splitlines_go cur false (line +:+ nl +:+ rest)
  = (cur +:+ line) :: PyStr.splitlines_go "" false rest.
Proof.
  unfold boundary_free. revert cur.
  induction line as [|c line IH]; intros cur Hline.
  - cbn. by rewrite app_empty_r.
  - cbn [PyStr.forallb] in Hline. apply andb_true_iff in Hline as [Hc Hline].
    apply negb_true_iff in Hc.
    cbn [String.append PyStr.splitlines_go andb]. rewrite Hc, IH by done.
    by rewrite app_assoc_str.
Qed.

(** The lines of a text whose lines each end with a line feed. *)
Lemma splitlines_text_of (lines : list string) :
  Forall boundary_free lines → PyStr.splitlines (text_of lines) = lines.
Proof.
  unfold PyStr.splitlines, text_of.
  induction 1 as [|line lines Hline _ IH]; [done|].
  cbn [fmap list_fmap concat_all foldr]. rewrite app_assoc_str.
  rewrite splitlines_go_line by done. cbn [String.append]. f_equal. exact IH.
Qed.

(** ** The library functions on small inputs *)

Example splitlines_boundaries :
  PyStr.splitlines ("a" +:+ String PyStr.CR nl +:+ "b" +:+ nl +:+ nl +:+ "c" +:+ nl)
  = ["a"; "b"; ""; "c"].
Proof. reflexivity. Qed.

Example urljoin_relative :
  mapM (UrlLib.urljoin "https://host/path/playlist.m3u8")
    ["seg000.ts"; "../x.ts"; "/abs/x.ts"; "//cdn/x.ts"; "./a/./b/../c.ts";
     "a;b?c#d"; "?q=1"; "//[2001:db8::1]:8080/x.ts"]
  = Ok ["https://host/path/seg000.ts"; "https://host/x.ts";
        "https://host/abs/x.ts"; "https://cdn/x.ts"; "https://host/path/a/c.ts";
        "https://host/path/a;b?c#d"; "https://host/path/playlist.m3u8?q=1";
        "https://[2001:db8::1]:8080/x.ts"].
Proof. vm_compute. reflexivity. Qed.

Example urljoin_bracketed_hosts :
  UrlLib.urljoin "https://host/path/playlist.m3u8" "//[bad/seg001.ts"
  = Raise (ValueError InvalidIPv6URL)
  ∧ UrlLib.urljoin "https://host/path/playlist.m3u8" "//[host]/seg001.ts"
    = Raise (ValueError (NotAnAddress "host"))
  ∧ UrlLib.urljoin "https://host/path/playlist.m3u8" "//[192.0.2.1]/seg001.ts"
    = Raise (ValueError IPv4InBrackets)
  ∧ UrlLib.urljoin "https://host/path/playlist.m3u8" "//[v1]/seg001.ts"
    = Raise (ValueError InvalidIPvFuture)
  ∧ UrlLib.urljoin "https://[::1/playlist.m3u8" "seg001.ts"
    = Raise (ValueError InvalidIPv6URL).
Proof. vm_compute. done. Qed.

Example chunk_name_of_url :
  chunk_name "https://host/a/b.ts?x=1" = "b.ts"
  ∧ chunk_name "https://host/a/" = ""
  ∧ chunk_name "//[bad/b.ts" = ""
  ∧ PosixPath.join "output" "b.ts" = "output/b.ts".
Proof. vm_compute. done. Qed.

(** ** The playlist's chunk references *)

(** C1, as amended.  When every line of the playlist that is neither blank
    nor a directive resolves against the playlist URL, the chunk references
    are the resolutions of exactly these lines, in the order of the lines:
    there are as many references as such lines, and a blank or directive
    line, wherever it stands among the others, adds none.  When one of
    these lines does not resolve, the comprehension raises what [urljoin]
    raised for it and there is no reference at all.  The lines are those of
    [splitlines]: for a text whose lines each end with a line feed, the
    lines as written. *)
Theorem ts_urls_one_per_chunk_line (m3u8_url m3u8_content : string) :
  (∀ urls,
     ts_urls m3u8_url m3u8_content = Ok urls
     ↔ Forall2 (fun line ts_url => UrlLib.urljoin m3u8_url line = Ok ts_url)
         (filter names_chunk (PyStr.splitlines m3u8_content)) urls)
  ∧ (∀ urls,
       ts_urls m3u8_url m3u8_content = Ok urls →
       length urls = length (filter names_chunk (PyStr.splitlines m3u8_content)))
  ∧ (∀ before line after,
       PyStr.splitlines m3u8_content = before ++ line :: after →
       line = "" ∨ is_directive line →
       ts_urls m3u8_url m3u8_content = chunk_refs m3u8_url (before ++ after))
  ∧ (∀ e,
       ts_urls m3u8_url m3u8_content = Raise e →
       ∃ line, line ∈ filter names_chunk (PyStr.splitlines m3u8_content)
               ∧ UrlLib.urljoin m3u8_url line = Raise e)
  ∧ (∀ lines,
       Forall boundary_free lines →
       PyStr.splitlines (text_of lines) = lines
       ∧ ts_urls m3u8_url (text_of lines) = chunk_refs m3u8_url lines).
Proof.
  unfold ts_urls. split_and!.
  - intros urls. apply chunk_refs_Ok.
  - intros urls Hok. apply chunk_refs_Ok in Hok.
    symmetry. by eapply Forall2_length.
  - intros before line after -> Hline.
    rewrite chunk_refs_filter, (chunk_refs_filter _ (before ++ after)).
    rewrite !filter_app, filter_cons.
    destruct (decide (names_chunk line)) as [[Hne Hnd]|_]; [|done].
    destruct Hline; contradiction.
  - intros e. apply chunk_refs_Raise.
  - intros lines Hlines. by rewrite splitlines_text_of.
Qed.

Lemma ts_urls_one_per_chunk_line_witness :
  PyStr.splitlines
    (text_of ["#EXTM3U"; ""; "seg000.ts"; "#EXTINF:4.0,"; "seg001.ts"])
  = ["#EXTM3U"; ""; "seg000.ts"; "#EXTINF:4.0,"; "seg001.ts"]
  ∧ ts_urls "https://host/path/playlist.m3u8"
      (text_of ["#EXTM3U"; ""; "seg000.ts"; "#EXTINF:4.0,"; "seg001.ts"])
    = Ok ["https://host/path/seg000.ts"; "https://host/path/seg001.ts"]
  ∧ length
      (filter names_chunk
         (PyStr.splitlines
            (text_of ["#EXTM3U"; ""; "seg000.ts"; "#EXTINF:4.0,"; "seg001.ts"])))
    = 2.
Proof.
  destruct (ts_urls_one_per_chunk_line "https://host/path/playlist.m3u8"
              (text_of ["#EXTM3U"; ""; "seg000.ts"; "#EXTINF:4.0,"; "seg001.ts"]))
    as (_ & Hlength & _ & _ & Hlines).
  destruct (Hlines ["#EXTM3U"; ""; "seg000.ts"; "#EXTINF:4.0,"; "seg001.ts"])
    as [Hsplit Hrefs]; [repeat constructor|].
  split; [exact Hsplit|]. split.
  - rewrite Hrefs. vm_compute. reflexivity.
  - rewrite <- (Hlength ["https://host/path/seg000.ts"; "https://host/path/seg001.ts"]);
      [reflexivity|].
    rewrite Hrefs. vm_compute. reflexivity.
Defined.

(** A playlist with directives and blank lines among three entries. *)
Example ts_urls_mixture :
  ts_urls "https://host/path/playlist.m3u8"
    ("#EXTM3U" +:+ nl +:+ nl +:+ "#EXTINF:4.0," +:+ nl +:+ "seg000.ts" +:+ nl
     +:+ "#EXTINF:4.0," +:+ nl +:+ "seg001.ts" +:+ String PyStr.CR nl +:+ nl
     +:+ "seg002.ts" +:+ nl +:+ "#EXT-X-ENDLIST")
  = Ok ["https://host/path/seg000.ts"; "https://host/path/seg001.ts";
        "https://host/path/seg002.ts"].
Proof. vm_compute. reflexivity. Qed.

(** C1, as stated, fails: a playlist with two lines that are neither blank
    nor directives, the second with a bracket that is not closed in its
    host, gives no chunk reference at all: the comprehension raises, and
    so does [download_m3u8]. *)
Lemma ts_urls_malformed_entry_counterexample :
  filter names_chunk
    (PyStr.splitlines ("seg000.ts" +:+ nl +:+ "//[bad/seg001.ts" +:+ nl))
  = ["seg000.ts"; "//[bad/seg001.ts"]
  ∧ ts_urls "https://host/path/playlist.m3u8"
      ("seg000.ts" +:+ nl +:+ "//[bad/seg001.ts" +:+ nl)
    = Raise (ValueError InvalidIPv6URL)
  ∧ fst (download_m3u8 malformed_entry_env "https://host/path/playlist.m3u8"
           "output" empty_world)
    = Raise (ValueError InvalidIPv6URL).
Proof. vm_compute. done. Qed.

(** ** The transcoder's command line *)

(** C4.  The command is [ffmpeg -f concat -safe 0 -i <manifest>], followed
    by [-c copy] when no re-encoding is asked for and by
    [-c:v libx264 -crf 23 -preset medium -c:a aac -b:a 128k] when it is, and
    ends with the output path. *)
Theorem ffmpeg_command_shape (input_file output_file : string) (compress : bool) :
  ffmpeg_command input_file output_file compress
  = ["ffmpeg"; "-f"; "concat"; "-safe"; "0"; "-i"; input_file]
    ++ (if compress
        then ["-c:v"; "libx264"; "-crf"; "23"; "-preset"; "medium";
              "-c:a"; "aac"; "-b:a"; "128k"]
        else ["-c"; "copy"])
    ++ [output_file]
  ∧ last (ffmpeg_command input_file output_file compress) = Some output_file
  ∧ ffmpeg_command input_file output_file false
    = ["ffmpeg"; "-f"; "concat"; "-safe"; "0"; "-i"; input_file;
       "-c"; "copy"; output_file]
  ∧ ffmpeg_command input_file output_file true
    = ["ffmpeg"; "-f"; "concat"; "-safe"; "0"; "-i"; input_file;
       "-c:v"; "libx264"; "-crf"; "23"; "-preset"; "medium";
       "-c:a"; "aac"; "-b:a"; "128k"; output_file].
Proof.
  split; [|split; [|split]].
  - unfold ffmpeg_command. destruct compress; by rewrite <- List.app_assoc.
  - unfold ffmpeg_command. apply last_snoc.
  - reflexivity.
  - reflexivity.
Qed.

(** ** Running the script *)

Lemma bind_run {A B} (m : M A) (k : A → M B) (w : world) :
  (m ≫= k) w = match m w with
               | (Ok a, w') => k a w'
               | (Raise e, w') => (Raise e, w')
               end.
Proof. reflexivity. Qed.

Lemma get_body E u b w : session_get E u = Body b → get E u w = (Ok b, w).
Proof. intros H. unfold get. by rewrite H. Qed.

Lemma get_failure E u msg w :
  session_get E u = NetworkFailure msg →
  get E u w = (Raise (RequestException msg), w).
Proof. intros H. unfold get. by rewrite H. Qed.

(** C10.  When the fetch of the playlist raises, the exception leaves
    [download_m3u8] and the script before anything else is done: the world
    is the one the run started in, so no directory has been created and no
    file written, and the exit status is 1. *)
Theorem playlist_fetch_failure_leaves_no_trace (E : env) (a : args) (w : world)
    (msg : string) :
  session_get E (url a) = NetworkFailure msg →
  download_m3u8 E (url a) "output" w = (Raise (RequestException msg), w)
  ∧ main E a w = (Raise (RequestException msg), w)
  ∧ dirs (snd (main E a w)) = dirs w
  ∧ files (snd (main E a w)) = files w
  ∧ exit_status (fst (main E a w)) = 1%Z.
Proof.
  intros Hget.
  assert (Hd : download_m3u8 E (url a) "output" w
               = (Raise (RequestException msg), w)).
  { unfold download_m3u8. rewrite bind_run. by rewrite (get_failure _ _ _ _ Hget). }
  assert (Hm : main E a w = (Raise (RequestException msg), w)).
  { unfold main. rewrite bind_run. by rewrite Hd. }
  rewrite Hm. done.
Qed.

Lemma playlist_fetch_failure_witness :
  main unreachable_env (Args "https://host/path/playlist.m3u8" "output.mp4" false)
    empty_world
  = (Raise (RequestException "connection refused"), empty_world).
Proof.
  apply (playlist_fetch_failure_leaves_no_trace unreachable_env
           (Args "https://host/path/playlist.m3u8" "output.mp4" false)
           empty_world "connection refused").
  reflexivity.
Defined.

(** ** The download units and the pool *)

Lemma keeps_entries_refl w : keeps_entries w w.
Proof. intros d entries H. by exists entries. Qed.

Lemma keeps_entries_trans w1 w2 w3 :
  keeps_entries w1 w2 → keeps_entries w2 w3 → keeps_entries w1 w3.
Proof.
  intros H12 H23 d e1 H1.
  destruct (H12 d e1 H1) as (e2 & H2 & Hsub).
  destruct (H23 d e2 H2) as (e3 & H3 & Hsub').
  exists e3. split; [done|]. set_solver.
Qed.

Lemma keeps_entries_same_dirs w w' : dirs w' = dirs w → keeps_entries w w'.
Proof. intros Heq d entries H. exists entries. by rewrite Heq. Qed.

Lemma keeps_entries_has_entry w w' d n :
  keeps_entries w w' → has_entry w d n → has_entry w' d n.
Proof.
  intros Hk (entries & Hd & Hn).
  destruct (Hk d entries Hd) as (entries' & Hd' & Hsub).
  exists entries'. split; [done|]. set_solver.
Qed.

Lemma keeps_entries_dir w w' d :
  keeps_entries w w' → is_Some (dirs w !! d) → is_Some (dirs w' !! d).
Proof.
  intros Hk [entries Hd]. destruct (Hk d entries Hd) as (entries' & Hd' & _).
  by exists entries'.
Qed.

Lemma open_w_keeps E p w : keeps_entries w (snd (open_w E p w)).
Proof.
  unfold open_w, fault. rewrite bind_run.
  destruct (fs_fault E OpOpen p); [apply keeps_entries_refl|].
  unfold ret, state. cbn [fst snd].
  destruct (locate p) as [[d|] n].
  - destruct (dirs w !! d) as [entries|] eqn:Hd; [|apply keeps_entries_refl].
    destruct (names_a_directory n); [apply keeps_entries_refl|].
    cbn [snd]. intros d' e' Hd'. unfold set_dirs. cbn [dirs].
    destruct (decide (d = d')) as [<-|Hne].
    + rewrite lookup_insert_eq. eexists. split; [done|].
      rewrite dom_insert. set_solver.
    + rewrite lookup_insert_ne by done. by exists e'.
  - destruct (_ || _); [apply keeps_entries_refl|].
    by apply keeps_entries_same_dirs.
Qed.

Lemma file_write_keeps p s w : keeps_entries w (snd (file_write p s w)).
Proof.
  unfold file_write. destruct (locate p) as [[d|] n]; cbn [snd].
  - intros d' e' Hd'. unfold set_dirs. cbn [dirs].
    destruct (decide (d = d')) as [<-|Hne].
    + rewrite lookup_alter_eq, Hd'. cbn. eexists. split; [done|].
      by rewrite dom_alter.
    + rewrite lookup_alter_ne by done. by exists e'.
  - by apply keeps_entries_same_dirs.
Qed.

Lemma file_write_ok p s w : fst (file_write p s w) = Ok tt.
Proof. unfold file_write. by destruct (locate p) as [[d|] n]. Qed.

Lemma print_run s w :
  print s w = (Ok tt, World (dirs w) (files w) (stdout w ++ [s]) (bar w)).
Proof. reflexivity. Qed.

Lemma lift_run {A} (r : result A) (w : world) : lift r w = (r, w).
Proof. reflexivity. Qed.

Lemma chunk_name_parsed ts_url parsed :
  UrlLib.urlparse ts_url "" = Ok parsed →
  chunk_name ts_url = PosixPath.basename (UrlLib.path parsed).
Proof. intros H. unfold chunk_name. by rewrite H. Qed.

Lemma chunk_name_unparsed ts_url e :
  UrlLib.urlparse ts_url "" = Raise e → chunk_name ts_url = "".
Proof. intros H. unfold chunk_name. by rewrite H. Qed.

(** A chunk with a name has a URL that parses. *)
Lemma named_chunk_parses ts_url :
  names_a_directory (chunk_name ts_url) = false →
  ∃ parsed, UrlLib.urlparse ts_url "" = Ok parsed.
Proof.
  unfold chunk_name. destruct (UrlLib.urlparse ts_url "") as [parsed|e]; [|done].
  by exists parsed.
Qed.

(** On a URL that parses, the unit goes on to fetch and save under the
    chunk's name. *)
Lemma download_ts_segment_parsed E ts_url output_folder w parsed :
  UrlLib.urlparse ts_url "" = Ok parsed →
  download_ts_segment E ts_url output_folder w
  = try_except
      (ts_content ← get E ts_url;
       open_w E (PosixPath.join output_folder (chunk_name ts_url));;
       file_write (PosixPath.join output_folder (chunk_name ts_url)) ts_content;;
       ret PyNone)
      is_Exception
      (fun e =>
         print ("Failed to download " +:+ ts_url +:+ ": " +:+ str_exn E e);;
         ret PyNone) w.
Proof.
  intros Hp. rewrite (chunk_name_parsed _ _ Hp).
  unfold download_ts_segment, try_except. by rewrite bind_run, lift_run, Hp.
Qed.

(** On a URL that [urlparse] rejects, the unit fetches nothing: it prints
    the failure and returns. *)
Lemma download_ts_segment_unparsed E ts_url output_folder w e :
  UrlLib.urlparse ts_url "" = Raise e →
  download_ts_segment E ts_url output_folder w
  = (Ok PyNone,
     World (dirs w) (files w)
       (stdout w ++ ["Failed to download " +:+ ts_url +:+ ": " +:+ str_exn E e])
       (bar w)).
Proof.
  intros Hp. unfold download_ts_segment, try_except.
  by rewrite bind_run, lift_run, Hp.
Qed.

(** The unit of work catches whatever its body raises: it returns [None]
    in every environment and from every world. *)
Lemma download_ts_segment_well_behaved E ts_url output_folder :
  well_behaved (download_ts_segment E ts_url output_folder).
Proof.
  intros w. destruct (UrlLib.urlparse ts_url "") as [parsed|e0] eqn:Hp.
  2:{ rewrite (download_ts_segment_unparsed _ _ _ _ _ Hp). eexists.
      split; [done|]. by apply keeps_entries_same_dirs. }
  rewrite (download_ts_segment_parsed _ _ _ _ _ Hp). unfold try_except.
  set (p := PosixPath.join output_folder _).
  rewrite bind_run. unfold get.
  destruct (session_get E ts_url) as [b|msg]; cbn [raise ret].
  2:{ rewrite bind_run, print_run. eexists. split; [done|].
      by apply keeps_entries_same_dirs. }
  rewrite bind_run.
  pose proof (open_w_keeps E p w) as Ho.
  destruct (open_w E p w) as [[[]|e] w1] eqn:Hopen; cbn [snd] in Ho.
  2:{ cbn [is_Exception]. rewrite bind_run, print_run. eexists. split; [done|].
      eapply keeps_entries_trans; [done|]. by apply keeps_entries_same_dirs. }
  rewrite bind_run.
  pose proof (file_write_keeps p b w1) as Hw.
  pose proof (file_write_ok p b w1) as Hok.
  destruct (file_write p b w1) as [r w2]. cbn [fst snd] in *. subst r.
  eexists. split; [done|]. by eapply keeps_entries_trans.
Qed.

Lemma completion_order_perm {A} (schedule : list nat) (l : list A) :
  completion_order schedule l ≡ₚ l.
Proof.
  revert l. induction schedule as [|k schedule IH]; intros l; [done|].
  cbn [completion_order].
  destruct (l !! (k mod length l)) as [x|] eqn:Hx; [|done].
  rewrite IH. symmetry. by apply delete_Permutation.
Qed.

Lemma run_all_well_behaved (tasks : list (M pyval)) (w : world) :
  Forall well_behaved tasks →
  ∃ w', run_all tasks w = (replicate (length tasks) (Ok PyNone), w')
        ∧ keeps_entries w w'.
Proof.
  intros Hall. revert w. induction Hall as [|t tasks Ht _ IH]; intros w.
  - exists w. split; [done|]. apply keeps_entries_refl.
  - destruct (Ht w) as (w1 & Hrun & Hk1).
    destruct (IH w1) as (w2 & Hrest & Hk2).
    exists w2. cbn [run_all length replicate]. rewrite Hrun, Hrest.
    split; [done|]. by eapply keeps_entries_trans.
Qed.


Lemma for_as_completed_all_ok (n : nat) (w : world) :
  for_as_completed (replicate n (Ok PyNone)) w
  = (Ok tt, World (dirs w) (files w) (stdout w) (fst (bar w) + n, snd (bar w))).
Proof.
  revert w. induction n as [|n IH]; intros w.
  - cbn. destruct w as [d f s [b1 b2]]. cbn. by rewrite Nat.add_0_r.
  - cbn [replicate for_as_completed]. rewrite bind_run. cbn [future_result ret].
    rewrite bind_run. unfold progress_bar_update at 1. rewrite IH. cbn.
    do 3 f_equal. lia.
Qed.

(** ** Paths *)

Lemma rcut_none c s : PyStr.contains c s = false → PyStr.rcut c s = None.
Proof.
  induction s as [|a s IH]; [done|]. cbn [PyStr.contains PyStr.rcut].
  intros [Ha Hs]%orb_false_elim. by rewrite (IH Hs), Ha.
Qed.

Lemma rcut_app c a n :
  PyStr.contains c n = false → PyStr.rcut c (a +:+ String c n) = Some (a, n).
Proof.
  intros Hn. induction a as [|x a IH]; cbn [String.append PyStr.rcut].
  - by rewrite (rcut_none _ _ Hn), Ascii.eqb_refl.
  - by rewrite IH.
Qed.

Lemma rcut_tail c s x y :
  PyStr.rcut c s = Some (x, y) → PyStr.contains c y = false.
Proof.
  revert x. induction s as [|a s IH]; intros x; [done|]. cbn [PyStr.rcut].
  destruct (PyStr.rcut c s) as [[x' y']|] eqn:Hr.
  - intros [= _ <-]. by eapply IH.
  - destruct (Ascii.eqb a c); [|done]. intros [= _ <-].
    clear IH. induction s as [|b s IHs]; [done|].
    cbn [PyStr.rcut] in Hr. cbn [PyStr.contains].
    destruct (PyStr.rcut c s) as [[? ?]|]; [done|].
    destruct (Ascii.eqb b c); [done|]. by apply IHs.
Qed.

Lemma basename_no_separator p : PyStr.contains "/" (PosixPath.basename p) = false.
Proof.
  unfold PosixPath.basename.
  destruct (PyStr.rcut "/" p) as [[x y]|] eqn:Hr.
  - by eapply rcut_tail.
  - induction p as [|a p IH]; [done|]. cbn [PyStr.rcut PyStr.contains] in *.
    destruct (PyStr.rcut "/" p) as [[? ?]|]; [done|].
    destruct (Ascii.eqb a "/"); [done|]. by apply IH.
Qed.

Lemma chunk_name_no_separator ts_url : PyStr.contains "/" (chunk_name ts_url) = false.
Proof.
  unfold chunk_name. destruct (UrlLib.urlparse ts_url ""); [|done].
  apply basename_no_separator.
Qed.

Lemma startswith_char_contains c n :
  PyStr.contains c n = false → PyStr.startswith (String c "") n = false.
Proof.
  destruct n as [|a n]; [done|]. cbn [PyStr.contains PyStr.startswith].
  intros [Ha _]%orb_false_elim. rewrite Ascii.eqb_sym in Ha. by rewrite Ha.
Qed.

Lemma join_plain folder n :
  PyStr.truthy folder = true → PyStr.endswith "/" folder = false →
  PyStr.contains "/" n = false →
  PosixPath.join folder n = folder +:+ String "/" n.
Proof.
  intros Ht He Hn. unfold PosixPath.join.
  by rewrite (startswith_char_contains _ _ Hn), Ht, He.
Qed.

Lemma locate_join folder n :
  PyStr.truthy folder = true → PyStr.endswith "/" folder = false →
  PyStr.contains "/" n = false →
  locate (PosixPath.join folder n) = (Some folder, n).
Proof.
  intros Ht He Hn. rewrite join_plain by done.
  unfold locate. by rewrite rcut_app.
Qed.

Lemma locate_plain p : PyStr.contains "/" p = false → locate p = (None, p).
Proof. intros Hp. unfold locate. by rewrite rcut_none. Qed.

(** ** A unit of work that succeeds *)


Lemma download_ts_segment_network_failure E ts_url output_folder w parsed msg :
  UrlLib.urlparse ts_url "" = Ok parsed →
  session_get E ts_url = NetworkFailure msg →
  download_ts_segment E ts_url output_folder w
  = (Ok PyNone,
     World (dirs w) (files w)
       (stdout w ++ ["Failed to download " +:+ ts_url +:+ ": "
                     +:+ str_exn E (RequestException msg)])
       (bar w)).
Proof.
  intros Hp Hget. rewrite (download_ts_segment_parsed _ _ _ _ _ Hp).
  unfold try_except. by rewrite bind_run, (get_failure _ _ _ _ Hget).
Qed.

Lemma download_ts_segment_fs_failure E ts_url output_folder w parsed b msg :
  UrlLib.urlparse ts_url "" = Ok parsed →
  session_get E ts_url = Body b →
  fs_fault E OpOpen (PosixPath.join output_folder (chunk_name ts_url)) = Some msg →
  download_ts_segment E ts_url output_folder w
  = (Ok PyNone,
     World (dirs w) (files w)
       (stdout w ++ ["Failed to download " +:+ ts_url +:+ ": "
                     +:+ str_exn E (OSError msg)])
       (bar w)).
Proof.
  intros Hp Hget Hfault. rewrite (download_ts_segment_parsed _ _ _ _ _ Hp).
  unfold try_except. rewrite bind_run, (get_body _ _ _ _ Hget).
  rewrite bind_run. unfold open_w, fault. by rewrite bind_run, Hfault.
Qed.


(** ** The coordinator *)


(** When the comprehension of line 45 raises, its exception leaves
    [download_m3u8] after the folder has been made and before any unit is
    submitted. *)
Lemma download_m3u8_unresolved E m3u8_url output_folder playlist e w :
  session_get E m3u8_url = Body playlist →
  ts_urls m3u8_url playlist = Raise e →
  download_m3u8 E m3u8_url output_folder w
  = match makedirs E output_folder w with
    | (Ok _, w1) => (Raise e, w1)
    | (Raise e', w1) => (Raise e', w1)
    end.
Proof.
  intros Hget Hurls. unfold download_m3u8.
  rewrite bind_run, (get_body _ _ _ _ Hget). rewrite bind_run.
  destruct (makedirs E output_folder w) as [[[]|e'] w1]; [|done].
  by rewrite bind_run, lift_run, Hurls.
Qed.



(** ** The assembly list *)

Lemma set_files_id w : set_files (files w) w = w.
Proof. by destruct w. Qed.

Lemma for_each_file_write {A} (g : A → string) (lf : string) (l : list A)
    (w : world) (c : string) :
  locate lf = (None, lf) →
  files w !! lf = Some c →
  for_each l (fun x => file_write lf (g x)) w
  = (Ok tt, set_files (<[lf := c +:+ concat_all (g <$> l)]> (files w)) w).
Proof.
  intros Hloc. revert w c. induction l as [|x l IH]; intros w c Hc.
  - cbn. rewrite app_empty_r, insert_id by done. by rewrite set_files_id.
  - cbn [for_each]. rewrite bind_run. unfold file_write at 1. rewrite Hloc.
    erewrite IH; last first.
    { unfold set_files. cbn [files]. rewrite lookup_alter_eq, Hc. done. }
    f_equal. unfold set_files. cbn [dirs files stdout bar fmap list_fmap concat_all foldr].
    f_equal. rewrite app_assoc_str.
    apply map_eq. intros k. destruct (decide (lf = k)) as [<-|Hne].
    + by rewrite !lookup_insert_eq.
    + by rewrite !lookup_insert_ne, lookup_alter_ne.
Qed.


Lemma ts_files_of_filter names :
  ts_files_of names ≡ₚ filter is_ts names.
Proof.
  unfold ts_files_of, sorted. rewrite merge_sort_Permutation.
  rewrite (list_filter_stdpp _ is_ts); [done|].
  intros f. unfold is_ts. by destruct (PyStr.endswith ".ts" f).
Qed.


Lemma ts_files_of_spec (entries : gmap string string) (f : string) :
  f ∈ ts_files_of (elements (dom entries)) ↔ f ∈ dom entries ∧ is_ts f.
Proof.
  rewrite ts_files_of_filter, list_elem_of_filter, elem_of_elements. tauto.
Qed.


Lemma create_file_list_run E output_folder list_file_name w entries :
  dirs w !! output_folder = Some entries →
  fs_fault E OpListdir output_folder = None →
  fs_fault E OpOpen list_file_name = None →
  PyStr.contains "/" list_file_name = false →
  names_a_directory list_file_name = false →
  dirs w !! list_file_name = None →
  create_file_list E output_folder list_file_name w
  = (Ok PyNone,
     World (dirs w)
       (<[list_file_name :=
            concat_all (manifest_record output_folder
                          <$> ts_files_of (elements (dom entries)))]> (files w))
       (stdout w ++ ["Created " +:+ list_file_name +:+ " with "
                     +:+ PyStr.str_nat (length (ts_files_of (elements (dom entries))))
                     +:+ " files listed."])
       (bar w)).
Proof.
  intros Hdir Hlist Hopen Hplain Hname Hnodir.
  pose proof (locate_plain _ Hplain) as Hloc.
  unfold create_file_list. rewrite bind_run.
  unfold listdir, fault at 1. rewrite bind_run, Hlist. unfold ret at 1, state at 1.
  rewrite Hdir. cbv zeta. rewrite bind_run.
  unfold open_w, fault. rewrite bind_run, Hopen. unfold ret at 1, state.
  rewrite Hloc, Hname, Hnodir. cbn [orb bool_decide].
  rewrite bool_decide_eq_false_2 by (by intros [? ?]).
  rewrite bind_run.
  rewrite (for_each_file_write (manifest_record output_folder) list_file_name _ _ "" Hloc);
    last by (unfold set_files; cbn [files]; rewrite lookup_insert_eq).
  rewrite bind_run, print_run. unfold set_files. cbn.
  by rewrite insert_insert_eq.
Qed.













(** ** Chunks without the extension *)

Lemma download_ts_segment_world E ts_url output_folder w b entries :
  session_get E ts_url = Body b →
  fs_fault E OpOpen (PosixPath.join output_folder (chunk_name ts_url)) = None →
  PyStr.truthy output_folder = true →
  PyStr.endswith "/" output_folder = false →
  dirs w !! output_folder = Some entries →
  names_a_directory (chunk_name ts_url) = false →
  download_ts_segment E ts_url output_folder w
  = (Ok PyNone,
     set_dirs (<[output_folder := <[chunk_name ts_url := b]> entries]> (dirs w)) w).
Proof.
  intros Hget Hfault Htruthy Hends Hd Hn.
  pose proof (locate_join output_folder (chunk_name ts_url) Htruthy Hends
                (chunk_name_no_separator ts_url)) as Hloc.
  destruct (named_chunk_parses _ Hn) as [parsed Hp].
  rewrite (download_ts_segment_parsed _ _ _ _ _ Hp). unfold try_except.
  rewrite bind_run, (get_body _ _ _ _ Hget).
  rewrite bind_run. unfold open_w, fault. rewrite bind_run, Hfault.
  unfold ret at 1, state. rewrite Hloc, Hd, Hn.
  rewrite bind_run. unfold file_write. rewrite Hloc.
  cbn. unfold set_dirs. cbn. by rewrite !alter_insert_eq.
Qed.




(** ** The transcoder's failure *)

Lemma execute_ffmpeg_command_failure E input_file output_file compress w rc d f :
  subprocess E (ffmpeg_command input_file output_file compress) w = Exits rc d f →
  rc ≠ 0%Z →
  execute_ffmpeg_command E input_file output_file compress w
  = (Ok PyNone,
     World d f
       (stdout w ++ ["Error executing ffmpeg command: "
                     +:+ str_exn E (CalledProcessError rc None)]
                 ++ ["ffmpeg stderr output: None"])
       (bar w)).
Proof.
  intros Hproc Hrc. unfold execute_ffmpeg_command. cbv zeta.
  rewrite bind_run. unfold try_except. rewrite bind_run.
  unfold subprocess_run. rewrite Hproc.
  apply Z.eqb_neq in Hrc. rewrite Hrc. cbn [is_CalledProcessError].
  rewrite bind_run, print_run, print_run. cbn. by rewrite <- List.app_assoc.
Qed.




(** ** Resolution of absolute entries *)

Lemma filter_app_str p (a b : string) :
  PyStr.filter p (a +:+ b) = PyStr.filter p a +:+ PyStr.filter p b.
Proof.
  induction a as [|x a IH]; [done|]. cbn [String.append PyStr.filter].
  destruct (p x); cbn [String.append]; by rewrite IH.
Qed.

Lemma filter_id_str (p q : ascii → bool) (s : string) :
  (∀ c, q c = true → p c = true) →
  PyStr.forallb q s = true → PyStr.filter p s = s.
Proof.
  intros Hpq. induction s as [|x s IH]; [done|]. cbn [PyStr.forallb PyStr.filter].
  intros [Hx Hs]%andb_true_iff. by rewrite (Hpq _ Hx), (IH Hs).
Qed.

Lemma forallb_contains (q : ascii → bool) (c : ascii) (s : string) :
  q c = false → PyStr.forallb q s = true → PyStr.contains c s = false.
Proof.
  intros Hc. induction s as [|x s IH]; [done|]. cbn [PyStr.forallb PyStr.contains].
  intros [Hx Hs]%andb_true_iff. rewrite (IH Hs), orb_false_r.
  destruct (Ascii.eqb_spec x c) as [->|]; [congruence|done].
Qed.

Lemma cut_none c s : PyStr.contains c s = false → PyStr.cut c s = None.
Proof.
  induction s as [|a s IH]; [done|]. cbn [PyStr.contains PyStr.cut].
  intros [Ha Hs]%orb_false_elim. by rewrite Ha, (IH Hs).
Qed.

Lemma cut_app c a b :
  PyStr.contains c a = false → PyStr.cut c (a +:+ String c b) = Some (a, b).
Proof.
  induction a as [|x a IH]; cbn [String.append PyStr.cut PyStr.contains].
  - by rewrite Ascii.eqb_refl.
  - intros [Hx Ha]%orb_false_elim. by rewrite Hx, (IH Ha).
Qed.

Lemma splitnetloc_app host rest :
  PyStr.forallb host_char host = true →
  (match rest with
   | EmptyString => true
   | String c _ => UrlLib.netloc_delim c
   end = true) →
  UrlLib.splitnetloc (host +:+ rest) = (host, rest).
Proof.
  intros Hhost Hrest. induction host as [|x host IH].
  - cbn [String.append]. destruct rest as [|c rest]; [done|].
    cbn [UrlLib.splitnetloc]. by rewrite Hrest.
  - cbn [PyStr.forallb] in Hhost. apply andb_true_iff in Hhost as [Hx Hhost].
    cbn [String.append UrlLib.splitnetloc]. rewrite (IH Hhost).
    unfold host_char in Hx. apply andb_true_iff in Hx as [[Hx _]%andb_true_iff _].
    by destruct (UrlLib.netloc_delim x).
Qed.

Lemma url_tail_safe path query :
  PyStr.forallb path_char path = true →
  PyStr.forallb query_char query = true →
  UrlLib.remove_unsafe (url_tail path query) = url_tail path query.
Proof.
  intros Hp Hq. unfold url_tail, UrlLib.remove_unsafe. rewrite filter_app_str.
  rewrite (filter_id_str _ path_char path);
    [|by intros c [_ ?]%andb_true_iff|done].
  destruct (PyStr.truthy query); [|done].
  change ("?" +:+ query) with (String "?" query).
  change (PyStr.filter ?p (String "?" query))
    with (String "?" (PyStr.filter p query)).
  rewrite (filter_id_str _ query_char query); [done| |done].
  by intros c' [_ ?]%andb_true_iff.
Qed.

Lemma url_tail_start path query :
  (path = "" ∨ PyStr.startswith "/" path = true) →
  match url_tail path query with
  | EmptyString => true
  | String c _ => UrlLib.netloc_delim c
  end = true.
Proof.
  unfold url_tail. intros [->|Hp].
  - cbn [String.append]. by destruct query.
  - destruct path as [|c path]; [done|]. cbn [PyStr.startswith] in Hp.
    apply andb_true_iff in Hp as [Hc _]. apply Ascii.eqb_eq in Hc as <-.
    reflexivity.
Qed.

Lemma url_tail_fragment path query :
  PyStr.forallb path_char path = true →
  PyStr.forallb query_char query = true →
  PyStr.cut "#" (url_tail path query) = None.
Proof.
  intros Hp Hq. apply cut_none. unfold url_tail. rewrite contains_app.
  rewrite (forallb_contains path_char "#" path) by done.
  destruct (PyStr.truthy query); [|done].
  change ("?" +:+ query) with (String "?" query).
  change (PyStr.contains "#" (String "?" query)) with (PyStr.contains "#" query).
  by rewrite (forallb_contains query_char "#" query).
Qed.

Lemma url_tail_query path query :
  PyStr.forallb path_char path = true →
  match PyStr.cut "?" (url_tail path query) with
  | Some (u, q) => (u, q)
  | None => (url_tail path query, "")
  end = (path, query).
Proof.
  intros Hp. unfold url_tail.
  pose proof (forallb_contains path_char "?" path eq_refl Hp) as Hc.
  destruct query as [|c query]; cbn [PyStr.truthy].
  - rewrite app_empty_r, cut_none by done. done.
  - cbn [String.append]. by rewrite cut_app.
Qed.

Lemma alpha_not_space c :
  PyStr.is_ascii_alpha c = true → UrlLib.c0_control_or_space c = false.
Proof. destruct c as [[] [] [] [] [] [] [] []]; vm_compute; done. Qed.

Lemma scheme_char_safe c :
  UrlLib.scheme_char c = true → negb (UrlLib.unsafe_byte c) = true.
Proof. destruct c as [[] [] [] [] [] [] [] []]; vm_compute; done. Qed.

Lemma check_brackets_plain host :
  PyStr.forallb host_char host = true → UrlLib.check_brackets host = Ok tt.
Proof.
  intros Hh. unfold UrlLib.check_brackets.
  rewrite (forallb_contains host_char "[" host) by done.
  by rewrite (forallb_contains host_char "]" host).
Qed.

Lemma urlsplit_absolute scheme host path query default :
  plain_absolute scheme host path query →
  UrlLib.urlsplit (absolute_url scheme host path query) default
  = Ok (UrlLib.mkSplit scheme host path query "").
Proof.
  intros (Hs & Hh & Hhc & Hp & Hpc & Hqc).
  unfold absolute_url.
  assert (Hsafe : UrlLib.remove_unsafe (host +:+ url_tail path query)
                  = host +:+ url_tail path query).
  { unfold UrlLib.remove_unsafe. rewrite filter_app_str.
    rewrite (filter_id_str _ host_char host);
      [|by intros c [[_ ?]%andb_true_iff _]%andb_true_iff|done].
    f_equal. by apply url_tail_safe. }
  set (body := host +:+ url_tail path query) in *.
  destruct scheme as [|c scheme']; [done|].
  unfold plain_scheme in Hs.
  apply andb_true_iff in Hs as [[Halpha Hchars]%andb_true_iff Hlower].
  apply String.eqb_eq in Hlower.
  set (scheme := String c scheme') in *.
  unfold UrlLib.urlsplit.
  assert (Hstrip : PyStr.lstrip UrlLib.c0_control_or_space (scheme +:+ "://" +:+ body)
                   = scheme +:+ "://" +:+ body).
  { unfold scheme. cbn [String.append PyStr.lstrip].
    by rewrite (alpha_not_space _ Halpha). }
  rewrite Hstrip.
  assert (Hrm : UrlLib.remove_unsafe (scheme +:+ "://" +:+ body)
                = scheme +:+ String ":" (String "/" (String "/" body))).
  { unfold UrlLib.remove_unsafe. rewrite !filter_app_str.
    rewrite (filter_id_str _ UrlLib.scheme_char scheme);
      [|apply scheme_char_safe|done].
    fold (UrlLib.remove_unsafe body). rewrite Hsafe. reflexivity. }
  rewrite Hrm.
  rewrite cut_app by (by apply (forallb_contains UrlLib.scheme_char)).
  unfold scheme at 1 2. cbv beta iota. fold scheme.
  rewrite Halpha, Hchars, Hlower. cbn [andb]. cbv beta iota zeta.
  unfold body. rewrite splitnetloc_app; [|done|by apply url_tail_start].
  cbv beta iota zeta. rewrite (check_brackets_plain _ Hhc).
  rewrite !result_bind_run. cbv beta iota zeta.
  rewrite url_tail_fragment by done. cbv beta iota zeta.
  pose proof (url_tail_query path query Hpc) as Hq.
  destruct (PyStr.cut "?" (url_tail path query)) as [[u q]|];
    injection Hq as -> ->; reflexivity.
Qed.

Lemma urlparse_absolute scheme host path query default :
  plain_absolute scheme host path query →
  UrlLib.urlparse (absolute_url scheme host path query) default
  = Ok (UrlLib.mkParse scheme host path "" query "").
Proof.
  intros H. unfold UrlLib.urlparse. rewrite (urlsplit_absolute _ _ _ _ _ H).
  rewrite result_bind_run.
  destruct H as (_ & _ & _ & _ & Hpc & _).
  cbn [UrlLib.s_path UrlLib.s_scheme UrlLib.s_netloc UrlLib.s_query UrlLib.s_fragment].
  rewrite (forallb_contains path_char ";" path) by done.
  by rewrite andb_false_r.
Qed.

Lemma urlunparse_absolute scheme host path query :
  plain_absolute scheme host path query →
  UrlLib.urlunparse (UrlLib.mkParse scheme host path "" query "")
  = absolute_url scheme host path query.
Proof.
  intros (Hs & Hh & Hhc & Hp & Hpc & Hqc).
  unfold UrlLib.urlunparse, UrlLib.urlunsplit, absolute_url, url_tail.
  cbn [UrlLib.params UrlLib.path UrlLib.scheme UrlLib.netloc UrlLib.query
       UrlLib.fragment PyStr.truthy UrlLib.s_path UrlLib.s_scheme
       UrlLib.s_netloc UrlLib.s_query UrlLib.s_fragment].
  rewrite Hh. cbn [orb].
  assert (Hpath : (if PyStr.truthy path && negb (PyStr.startswith "/" path)
                   then "/" +:+ path else path) = path).
  { destruct Hp as [->|Hp]; [done|]. by rewrite Hp, andb_false_r. }
  rewrite Hpath.
  assert (Hscheme : PyStr.truthy scheme = true) by (by destruct scheme).
  rewrite Hscheme.
  destruct (PyStr.truthy query).
  - by rewrite !app_assoc_str.
  - by rewrite app_empty_r.
Qed.

Lemma uses_relative_uses_netloc scheme :
  UrlLib.mem scheme UrlLib.uses_relative = true →
  UrlLib.mem scheme UrlLib.uses_netloc = true.
Proof.
  unfold UrlLib.mem. rewrite !bool_decide_eq_true.
  unfold UrlLib.uses_relative, UrlLib.uses_netloc. set_unfold.
  intros H. repeat (destruct H as [->|H]; [tauto|]). done.
Qed.

(** An absolute URL in plain form is left as it is, whatever the base, as
    long as the base parses. *)
Lemma urljoin_absolute base b scheme host path query :
  UrlLib.urlparse base "" = Ok b →
  plain_absolute scheme host path query →
  UrlLib.urljoin base (absolute_url scheme host path query)
  = Ok (absolute_url scheme host path query).
Proof.
  intros Hb H. unfold UrlLib.urljoin.
  destruct (negb (PyStr.truthy base)); [done|].
  assert (Hurl : PyStr.truthy (absolute_url scheme host path query) = true).
  { destruct H as (Hs & _). by destruct scheme. }
  rewrite Hurl. cbn [negb]. rewrite Hb, result_bind_run.
  rewrite (urlparse_absolute _ _ _ _ _ H), result_bind_run.
  cbn [UrlLib.scheme UrlLib.netloc].
  destruct (negb (String.eqb scheme _) || negb (UrlLib.mem scheme UrlLib.uses_relative))
    eqn:Hcase; [done|].
  apply orb_false_elim in Hcase as [_ Hrel%negb_false_iff].
  rewrite (uses_relative_uses_netloc _ Hrel).
  destruct H as (Hs & Hh & Hrest). rewrite Hh. cbn [andb].
  f_equal. by apply urlunparse_absolute.
Qed.

(** ** Resolution of relative entries *)

Lemma split_single c n : PyStr.contains c n = false → PyStr.split c n = [n].
Proof.
  induction n as [|a n IH]; [done|]. cbn [PyStr.contains PyStr.split].
  intros [Ha Hn]%orb_false_elim. by rewrite Ha, (IH Hn).
Qed.

Lemma split_prefix c a t rest :
  PyStr.contains c a = false →
  PyStr.split c t = "" :: rest →
  PyStr.split c (a +:+ t) = a :: rest.
Proof.
  intros Ha Ht. induction a as [|x a IH]; [done|].
  cbn [PyStr.contains] in Ha. apply orb_false_elim in Ha as [Hx Ha].
  cbn [String.append PyStr.split]. by rewrite Hx, (IH Ha).
Qed.

Lemma path_of_cons d folders file :
  path_of (d :: folders) file = String "/" (d +:+ path_of folders file).
Proof.
  unfold path_of. cbn [fmap list_fmap concat_all foldr].
  rewrite !app_assoc_str. reflexivity.
Qed.

Lemma path_of_nil file : path_of [] file = String "/" file.
Proof. reflexivity. Qed.

Lemma split_path_of folders file :
  Forall plain_name folders →
  PyStr.contains "/" file = false →
  PyStr.split "/" (path_of folders file) = "" :: folders ++ [file].
Proof.
  intros Hfolders Hfile. induction Hfolders as [|d folders [Hd _] _ IH].
  - rewrite path_of_nil. cbn [PyStr.split Ascii.eqb]. cbn.
    by rewrite split_single.
  - rewrite path_of_cons. cbn [PyStr.split]. cbn [Ascii.eqb]. cbn.
    by rewrite (split_prefix _ _ _ _ Hd IH).
Qed.

Lemma join_cons c x y l :
  PyStr.join c (x :: y :: l) = x +:+ String c (PyStr.join c (y :: l)).
Proof. reflexivity. Qed.

Lemma join_path_of folders name :
  PyStr.join "/" ("" :: folders ++ [name]) = path_of folders name.
Proof.
  assert (H : ∀ x, PyStr.join "/" (x :: folders ++ [name])
                   = x +:+ path_of folders name).
  { induction folders as [|d folders IH]; intros x; [done|].
    rewrite path_of_cons. cbn [app]. by rewrite join_cons, IH. }
  by rewrite H.
Qed.

Lemma resolve_plain acc segments :
  Forall (fun seg => seg ≠ ".." ∧ seg ≠ ".") segments →
  UrlLib.resolve acc segments = acc ++ segments.
Proof.
  intros H. revert acc. induction H as [|seg segments [H1 H2] _ IH]; intros acc.
  - by rewrite app_nil_r.
  - cbn [UrlLib.resolve].
    apply String.eqb_neq in H1, H2. rewrite H1, H2, IH.
    by rewrite <- List.app_assoc.
Qed.

Lemma filter_truthy (l : list string) :
  Forall (fun x => PyStr.truthy x = true) l → List.filter PyStr.truthy l = l.
Proof.
  induction 1 as [|x l Hx _ IH]; [done|]. cbn. by rewrite Hx, IH.
Qed.

Lemma plain_name_truthy n : plain_name n → PyStr.truthy n = true.
Proof. intros [_ H]. by destruct n. Qed.

Lemma plain_name_not_dots n : names_a_directory n = false → n ≠ ".." ∧ n ≠ ".".
Proof. intros H. split; intros ->; done. Qed.

Lemma match_slashes {A} (url : string) (f : string → A) (g : A) :
  PyStr.startswith "/" url = false →
  match url with
  | String "/" (String "/" rest) => f rest
  | _ => g
  end = g.
Proof.
  destruct url as [|c u]; [done|].
  destruct c as [[] [] [] [] [] [] [] []]; done.
Qed.

Lemma file_name_char_path c : file_name_char c = true → path_char c = true.
Proof. by intros [? _]%andb_true_iff. Qed.

Lemma relative_scheme_plain scheme :
  UrlLib.mem scheme UrlLib.uses_relative = true →
  UrlLib.remove_unsafe (PyStr.strip UrlLib.c0_control_or_space scheme) = scheme.
Proof.
  unfold UrlLib.mem. rewrite bool_decide_eq_true.
  unfold UrlLib.uses_relative. set_unfold.
  intros H. repeat (destruct H as [->|H]; [reflexivity|]). done.
Qed.

(** A bare file name parses as a path, under the scheme of the base. *)
Lemma urlsplit_bare_file_name name scheme :
  bare_file_name name →
  UrlLib.mem scheme UrlLib.uses_relative = true →
  UrlLib.urlsplit name scheme = Ok (UrlLib.mkSplit scheme "" name "" "").
Proof.
  intros (Hname & Hchars & Hstrip) Hrel.
  assert (Hno : ∀ c, file_name_char c = false → PyStr.contains c name = false).
  { intros c Hc. by apply (forallb_contains file_name_char). }
  unfold UrlLib.urlsplit.
  rewrite Hstrip, (relative_scheme_plain _ Hrel).
  assert (Hsafe : UrlLib.remove_unsafe name = name).
  { apply (filter_id_str _ file_name_char); [|done].
    intros c [[_ ?]%andb_true_iff _]%andb_true_iff. done. }
  rewrite Hsafe, (cut_none ":" name) by (by apply Hno).
  rewrite match_slashes by (apply startswith_char_contains; by apply Hno).
  rewrite result_bind_run. cbv beta iota zeta.
  by rewrite (cut_none "#" name), (cut_none "?" name) by (by apply Hno).
Qed.

Lemma urlparse_bare_file_name name scheme :
  bare_file_name name →
  UrlLib.mem scheme UrlLib.uses_relative = true →
  UrlLib.urlparse name scheme = Ok (UrlLib.mkParse scheme "" name "" "" "").
Proof.
  intros Hbare Hrel. unfold UrlLib.urlparse.
  rewrite (urlsplit_bare_file_name _ _ Hbare Hrel), result_bind_run.
  cbn [UrlLib.s_path UrlLib.s_scheme UrlLib.s_netloc UrlLib.s_query UrlLib.s_fragment].
  destruct Hbare as (_ & Hchars & _).
  rewrite (forallb_contains file_name_char ";" name) by done.
  by rewrite andb_false_r.
Qed.

Lemma forallb_app p (a b : string) :
  PyStr.forallb p (a +:+ b) = PyStr.forallb p a && PyStr.forallb p b.
Proof.
  induction a as [|x a IH]; [done|]. cbn [String.append PyStr.forallb].
  by rewrite IH, andb_assoc.
Qed.

Lemma forallb_impl (p q : ascii → bool) (s : string) :
  (∀ c, p c = true → q c = true) →
  PyStr.forallb p s = true → PyStr.forallb q s = true.
Proof.
  intros Hpq. induction s as [|x s IH]; [done|]. cbn [PyStr.forallb].
  intros [Hx Hs]%andb_true_iff. by rewrite (Hpq _ Hx), (IH Hs).
Qed.

(** The path of the resolved entry has the characters of a path. *)
Lemma path_of_chars folders file name :
  PyStr.forallb path_char (path_of folders file) = true →
  PyStr.forallb path_char name = true →
  PyStr.forallb path_char (path_of folders name) = true.
Proof.
  unfold path_of. rewrite !forallb_app.
  intros [Hf _]%andb_true_iff Hn. by rewrite Hf, Hn.
Qed.

Lemma path_of_start folders file : PyStr.startswith "/" (path_of folders file) = true.
Proof. destruct folders; [done|]. by rewrite path_of_cons. Qed.

(** A bare file name resolves to the file of that name beside the
    playlist. *)
Lemma urljoin_bare_file_name scheme host folders file query name :
  plain_absolute scheme host (path_of folders file) query →
  UrlLib.mem scheme UrlLib.uses_relative = true →
  Forall plain_name folders →
  PyStr.contains "/" file = false →
  bare_file_name name →
  UrlLib.urljoin (absolute_url scheme host (path_of folders file) query) name
  = Ok (absolute_url scheme host (path_of folders name) "").
Proof.
  intros Hbase Hrel Hfolders Hfile Hbare.
  assert (Hplain : plain_absolute scheme host (path_of folders name) "").
  { destruct Hbase as (Hs & Hh & Hhc & Hp & Hpc & Hqc).
    destruct Hbare as (_ & Hchars & _).
    split_and!; try done.
    - right. apply path_of_start.
    - apply (path_of_chars _ file); [done|].
      by apply (forallb_impl file_name_char), Hchars; apply file_name_char_path. }
  assert (Hsep : PyStr.contains "/" name = false).
  { destruct Hbare as (_ & Hchars & _).
    by apply (forallb_contains file_name_char). }
  unfold UrlLib.urljoin.
  assert (Htb : PyStr.truthy (absolute_url scheme host (path_of folders file) query)
                = true).
  { destruct Hbase as (Hs & _). by destruct scheme. }
  assert (Htn : PyStr.truthy name = true).
  { destruct Hbare as (Hn & _). by destruct name. }
  rewrite Htb, Htn. cbn [negb].
  rewrite (urlparse_absolute _ _ _ _ _ Hbase), result_bind_run.
  cbn [UrlLib.scheme].
  rewrite (urlparse_bare_file_name _ _ Hbare Hrel), result_bind_run.
  cbn [UrlLib.scheme UrlLib.netloc UrlLib.path UrlLib.params UrlLib.query
       UrlLib.fragment].
  rewrite String.eqb_refl, Hrel, (uses_relative_uses_netloc _ Hrel), Htn.
  cbn [negb orb andb PyStr.truthy]. cbv zeta.
  rewrite (startswith_char_contains _ _ Hsep), (split_single _ _ Hsep).
  rewrite (split_path_of _ _ Hfolders Hfile).
  assert (Hsegments :
    UrlLib.drop_empty_inner
      ((if String.eqb (List.last ("" :: folders ++ [file]) "") ""
        then "" :: folders ++ [file]
        else removelast ("" :: folders ++ [file])) ++ [name])
    = "" :: folders ++ [name]).
  { assert (Htruthy : Forall (fun x => PyStr.truthy x = true) folders).
    { eapply Forall_impl; [exact Hfolders|]. apply plain_name_truthy. }
    change ("" :: folders ++ [file]) with (("" :: folders) ++ [file]).
    rewrite List.last_last, List.removelast_last.
    destruct (String.eqb_spec file "") as [->|Hne].
    - cbn [app]. unfold UrlLib.drop_empty_inner.
      change ((folders ++ [""]) ++ [name]) with ((folders ++ [""]) ++ [name]).
      destruct ((folders ++ [""]) ++ [name]) as [|y l] eqn:Hl.
      { by destruct folders. }
      rewrite <- Hl. rewrite List.removelast_last, List.last_last.
      rewrite List.filter_app, (filter_truthy _ Htruthy). cbn.
      by rewrite app_nil_r.
    - cbn [app]. unfold UrlLib.drop_empty_inner.
      destruct (folders ++ [name]) as [|y l] eqn:Hl.
      { by destruct folders. }
      rewrite <- Hl. rewrite List.removelast_last, List.last_last.
      by rewrite (filter_truthy _ Htruthy). }
  rewrite Hsegments.
  rewrite resolve_plain; last first.
  { constructor; [done|]. apply Forall_app. split.
    - eapply Forall_impl; [exact Hfolders|]. intros d [_ Hd].
      by apply plain_name_not_dots.
    - constructor; [|done]. destruct Hbare as (Hn & _).
      by apply plain_name_not_dots. }
  cbn [app].
  change ("" :: folders ++ [name]) with (("" :: folders) ++ [name]).
  rewrite List.last_last.
  change (("" :: folders) ++ [name]) with ("" :: folders ++ [name]).
  assert (Hdots : UrlLib.mem name ["."; ".."] = false).
  { destruct Hbare as (Hn & _). unfold UrlLib.mem.
    apply bool_decide_eq_false_2. set_unfold.
    intros [->| [->|[]]]; done. }
  rewrite Hdots, join_path_of.
  assert (Htj : PyStr.truthy (path_of folders name) = true).
  { pose proof (path_of_start folders name). by destruct (path_of folders name). }
  rewrite Htj. f_equal. by apply urlunparse_absolute.
Qed.

(** C6, as amended.  The chunk references are the lines of the playlist
    that are neither blank nor directives, each resolved by [urljoin]
    against the playlist URL, when all of them resolve.  The relative
    entries [seg000.ts], [seg001.ts], [seg002.ts] under
    [https://host/path/playlist.m3u8] resolve to
    [https://host/path/seg000.ts] and so on; in general a bare file name
    under a playlist URL [scheme://host/d1/.../dk/file] resolves to
    [scheme://host/d1/.../dk/name].  An absolute entry written in the plain
    form [scheme://host/path?query] is left as it is whenever the playlist
    URL parses.  When the playlist URL does not parse, no line
    resolves: [urljoin] raises what the parsing raised. *)
Theorem chunk_refs_resolve_entries (m3u8_url m3u8_content : string) :
  (∀ urls,
     ts_urls m3u8_url m3u8_content = Ok urls
     ↔ Forall2 (fun line ts_url => UrlLib.urljoin m3u8_url line = Ok ts_url)
         (filter names_chunk (PyStr.splitlines m3u8_content)) urls)
  ∧ ts_urls "https://host/path/playlist.m3u8"
      ("seg000.ts" +:+ nl +:+ "seg001.ts" +:+ nl +:+ "seg002.ts" +:+ nl)
    = Ok ["https://host/path/seg000.ts"; "https://host/path/seg001.ts";
          "https://host/path/seg002.ts"]
  ∧ (∀ scheme host folders file query name,
       m3u8_url = absolute_url scheme host (path_of folders file) query →
       plain_absolute scheme host (path_of folders file) query →
       UrlLib.mem scheme UrlLib.uses_relative = true →
       Forall plain_name folders →
       PyStr.contains "/" file = false →
       bare_file_name name →
       UrlLib.urljoin m3u8_url name
       = Ok (absolute_url scheme host (path_of folders name) ""))
  ∧ (∀ parsed scheme host path query,
       UrlLib.urlparse m3u8_url "" = Ok parsed →
       plain_absolute scheme host path query →
       UrlLib.urljoin m3u8_url (absolute_url scheme host path query)
       = Ok (absolute_url scheme host path query))
  ∧ (∀ e line,
       UrlLib.urlparse m3u8_url "" = Raise e →
       line ≠ "" →
       UrlLib.urljoin m3u8_url line = Raise e).
Proof.
  split_and!.
  - intros urls. apply chunk_refs_Ok.
  - by vm_compute.
  - intros scheme host folders file query name ->.
    apply urljoin_bare_file_name.
  - intros parsed scheme host path query. apply urljoin_absolute.
  - intros e line Hbase Hline. unfold UrlLib.urljoin.
    destruct m3u8_url as [|c base]; [done|].
    destruct line as [|c' line]; [done|].
    cbn [PyStr.truthy negb]. by rewrite Hbase.
Qed.

Lemma chunk_refs_resolve_entries_witness :
  UrlLib.urljoin "https://host/path/playlist.m3u8" "seg000.ts"
  = Ok "https://host/path/seg000.ts"
  ∧ UrlLib.urljoin "https://host/path/playlist.m3u8"
      "https://cdn.example/v/seg000.ts?token=abc"
    = Ok "https://cdn.example/v/seg000.ts?token=abc".
Proof.
  destruct (chunk_refs_resolve_entries "https://host/path/playlist.m3u8" "")
    as (_ & _ & Hrelative & Hplain & _).
  split.
  - apply (Hrelative "https" "host" ["path"] "playlist.m3u8" "" "seg000.ts");
      [reflexivity | vm_compute; auto 10 | reflexivity | repeat constructor
      | reflexivity | by vm_compute].
  - apply (Hplain (UrlLib.mkParse "https" "host" "/path/playlist.m3u8" "" "" "")
             "https" "cdn.example" "/v/seg000.ts" "token=abc").
    + reflexivity.
    + vm_compute. auto 10.
Defined.

(** C6, as stated, fails on its last part: an absolute entry whose scheme
    is written in upper case is not left as it is. *)
Lemma absolute_entry_counterexample :
  ts_urls "https://host/path/playlist.m3u8" "HTTPS://cdn.example/seg000.ts"
  = Ok ["https://cdn.example/seg000.ts"]
  ∧ ts_urls "https://host/path/playlist.m3u8" "HTTPS://cdn.example/seg000.ts"
    ≠ Ok ["HTTPS://cdn.example/seg000.ts"].
Proof. vm_compute. done. Qed.

(** * Further properties of the script *)

(** ** What a download unit changes *)

Lemma download_ts_segment_effect E ts_url output_folder w entries :
  plain_folder output_folder →
  dirs w !! output_folder = Some entries →
  ∃ out,
    download_ts_segment E ts_url output_folder w
    = (Ok PyNone,
       World (<[output_folder := save E output_folder entries ts_url]> (dirs w))
         (files w) out (bar w)).
Proof.
  intros [Htruthy Hends] Hd.
  pose proof (locate_join output_folder (chunk_name ts_url) Htruthy Hends
                (chunk_name_no_separator ts_url)) as Hloc.
  unfold save, saved_bytes.
  destruct (UrlLib.urlparse ts_url "") as [parsed|e] eqn:Hp.
  2:{ rewrite (download_ts_segment_unparsed _ _ _ _ _ Hp).
      rewrite (chunk_name_unparsed _ _ Hp).
      replace (names_a_directory "") with true by reflexivity.
      eexists. f_equal. f_equal. symmetry.
      destruct (session_get E ts_url); [|by apply insert_id].
      destruct (fs_fault E OpOpen _); by apply insert_id. }
  destruct (session_get E ts_url) as [b|msg] eqn:Hget.
  2:{ rewrite (download_ts_segment_network_failure _ _ _ _ _ _ Hp Hget).
      eexists. by rewrite insert_id. }
  destruct (fs_fault E OpOpen _) as [msg|] eqn:Hfault.
  { rewrite (download_ts_segment_fs_failure _ _ _ _ _ _ _ Hp Hget Hfault).
    eexists. by rewrite insert_id. }
  destruct (names_a_directory (chunk_name ts_url)) eqn:Hn.
  - rewrite (download_ts_segment_parsed _ _ _ _ _ Hp). unfold try_except.
    rewrite bind_run, (get_body _ _ _ _ Hget).
    rewrite bind_run. unfold open_w, fault. rewrite bind_run, Hfault.
    unfold ret at 1, state. rewrite Hloc, Hd, Hn. cbn [is_Exception].
    rewrite bind_run, print_run. eexists. by rewrite insert_id.
  - rewrite (download_ts_segment_world E ts_url output_folder w b entries
               Hget Hfault Htruthy Hends Hd Hn).
    eexists. reflexivity.
Qed.

Lemma plain_name_folder output_folder :
  plain_name output_folder → plain_folder output_folder.
Proof.
  intros [Hsep Hname]. split.
  - destruct output_folder; [done|reflexivity].
  - unfold PyStr.endswith. change (String.rev "/") with "/".
    assert (Hrev : ∀ s acc, PyStr.contains "/" (String.rev_app s acc)
                            = PyStr.contains "/" s || PyStr.contains "/" acc).
    { induction s as [|a s IH]; intros acc; [done|].
      cbn [String.rev_app PyStr.contains]. rewrite IH. cbn [PyStr.contains].
      by destruct (Ascii.eqb a "/"), (PyStr.contains "/" s),
           (PyStr.contains "/" acc). }
    pose proof (Hrev output_folder "") as Hc. fold (String.rev output_folder) in Hc.
    rewrite Hsep in Hc. cbn [PyStr.contains orb] in Hc.
    destruct (String.rev output_folder) as [|a r]; [done|].
    cbn [PyStr.startswith]. cbn [PyStr.contains] in Hc.
    apply orb_false_elim in Hc as [Ha _].
    by rewrite Ascii.eqb_sym, Ha.
Qed.

(** A unit that finds no folder changes nothing but the printed lines. *)
Lemma download_ts_segment_no_folder E ts_url output_folder w :
  plain_folder output_folder →
  dirs w !! output_folder = None →
  ∃ out,
    download_ts_segment E ts_url output_folder w
    = (Ok PyNone, World (dirs w) (files w) out (bar w)).
Proof.
  intros [Htruthy Hends] Hd.
  pose proof (locate_join output_folder (chunk_name ts_url) Htruthy Hends
                (chunk_name_no_separator ts_url)) as Hloc.
  destruct (UrlLib.urlparse ts_url "") as [parsed|e] eqn:Hp.
  2:{ rewrite (download_ts_segment_unparsed _ _ _ _ _ Hp). by eexists. }
  destruct (session_get E ts_url) as [b|msg] eqn:Hget.
  2:{ rewrite (download_ts_segment_network_failure _ _ _ _ _ _ Hp Hget).
      by eexists. }
  destruct (fs_fault E OpOpen (PosixPath.join output_folder (chunk_name ts_url)))
    as [msg|] eqn:Hfault.
  { rewrite (download_ts_segment_fs_failure _ _ _ _ _ _ _ Hp Hget Hfault).
    by eexists. }
  rewrite (download_ts_segment_parsed _ _ _ _ _ Hp). unfold try_except.
  rewrite bind_run, (get_body _ _ _ _ Hget).
  rewrite bind_run. unfold open_w, fault. rewrite bind_run, Hfault.
  unfold ret at 1, state. rewrite Hloc, Hd. cbn [is_Exception].
  rewrite bind_run, print_run. by eexists.
Qed.

(** X1.  A download unit whose folder is a directory of the current
    directory, given by its name, touches nothing but that folder: the
    regular files of the current directory and every other directory are
    as before, and in the folder at most the file named after the chunk has
    changed.  That name holds no separator, so the file is directly in the
    folder. *)
Theorem download_stays_in_folder (E : env) (ts_url output_folder : string)
    (w : world) :
  plain_name output_folder →
  ∃ w',
    download_ts_segment E ts_url output_folder w = (Ok PyNone, w')
    ∧ files w' = files w
    ∧ (∀ d, d ≠ output_folder → dirs w' !! d = dirs w !! d)
    ∧ (∀ n, n ≠ chunk_name ts_url →
         file_content w' output_folder n = file_content w output_folder n)
    ∧ PyStr.contains "/" (chunk_name ts_url) = false.
Proof.
  intros Hfolder%plain_name_folder.
  destruct (dirs w !! output_folder) as [entries|] eqn:Hd.
  - destruct (download_ts_segment_effect E ts_url output_folder w entries Hfolder Hd)
      as (out & Hrun).
    eexists. split; [exact Hrun|]. cbn [files dirs]. split; [done|].
    split; [intros d Hne; by rewrite lookup_insert_ne|].
    split; [|apply chunk_name_no_separator].
    intros n Hn. unfold file_content. cbn [dirs].
    rewrite lookup_insert_eq, Hd. cbn. unfold save.
    destruct (saved_bytes E output_folder ts_url); [|done].
    by rewrite lookup_insert_ne.
  - destruct (download_ts_segment_no_folder E ts_url output_folder w Hfolder Hd)
      as (out & Hrun).
    eexists. split; [exact Hrun|]. cbn [files dirs].
    split; [done|]. split; [done|]. split; [done|apply chunk_name_no_separator].
Qed.

Lemma download_stays_in_folder_witness :
  ∃ w',
    download_ts_segment quiet_env "https://host/a/../../etc/seg000.ts" "output"
      three_chunks_world = (Ok PyNone, w')
    ∧ files w' = files three_chunks_world.
Proof.
  destruct (download_stays_in_folder quiet_env "https://host/a/../../etc/seg000.ts"
              "output" three_chunks_world) as (w' & Hrun & Hfiles & _).
  - split; reflexivity.
  - exists w'. by split.
Defined.

(** ** What the pool leaves in the folder *)

Lemma completion_order_fmap {A B} (f : A → B) (schedule : list nat) (l : list A) :
  completion_order schedule (f <$> l) = f <$> completion_order schedule l.
Proof.
  revert l. induction schedule as [|k schedule IH]; intros l; [done|].
  cbn [completion_order]. rewrite length_fmap, list_lookup_fmap.
  destruct (l !! (k mod length l)) as [x|]; cbn [fmap option_fmap option_map]; [|done].
  cbn [list_fmap]. f_equal. by rewrite <- list_fmap_delete, IH.
Qed.

Lemma run_all_effect E output_folder (urls : list string) w entries :
  plain_folder output_folder →
  dirs w !! output_folder = Some entries →
  ∃ out,
    run_all ((fun ts_url => download_ts_segment E ts_url output_folder) <$> urls) w
    = (replicate (length urls) (Ok PyNone),
       World (<[output_folder := foldl (save E output_folder) entries urls]> (dirs w))
         (files w) out (bar w)).
Proof.
  intros Hfolder. revert w entries.
  induction urls as [|u urls IH]; intros w entries Hd.
  - exists (stdout w). cbn. rewrite insert_id by done. by destruct w.
  - destruct (download_ts_segment_effect E u output_folder w entries Hfolder Hd)
      as (out1 & Hrun1).
    cbn [fmap list_fmap run_all foldl length replicate]. rewrite Hrun1.
    edestruct (IH (World (<[output_folder := save E output_folder entries u]> (dirs w))
                     (files w) out1 (bar w))) as (out2 & Hrun2).
    { cbn [dirs]. apply lookup_insert_eq. }
    fold (@fmap list _ _ _ (fun ts_url => download_ts_segment E ts_url output_folder) urls).
    rewrite Hrun2. cbn [dirs files bar]. rewrite insert_insert_eq. by eexists.
Qed.

Lemma makedirs_effect E p w :
  PyStr.truthy p = true →
  fs_fault E OpMakedirs p = None →
  is_Some (dirs w !! p) ∨ files w !! p = None →
  makedirs E p w
  = (Ok tt, set_dirs (<[p := default ∅ (dirs w !! p)]> (dirs w)) w).
Proof.
  intros Htruthy Hfault Hfile. unfold makedirs, fault. rewrite bind_run, Hfault.
  unfold ret, state. rewrite Htruthy. cbn [negb].
  destruct (dirs w !! p) as [entries|] eqn:Hd; cbn [default].
  - rewrite insert_id by done. by destruct w.
  - destruct Hfile as [[? ?]|Hfile]; [done|]. by rewrite Hfile.
Qed.

Lemma download_m3u8_effect E m3u8_url output_folder playlist urls w :
  session_get E m3u8_url = Body playlist →
  fs_fault E OpMakedirs output_folder = None →
  is_Some (dirs w !! output_folder) ∨ files w !! output_folder = None →
  plain_folder output_folder →
  ts_urls m3u8_url playlist = Ok urls →
  ∃ out,
    download_m3u8 E m3u8_url output_folder w
    = (Ok PyNone,
       World
         (<[output_folder :=
              foldl (save E output_folder) (default ∅ (dirs w !! output_folder))
                (completion_order (sched E) urls)]> (dirs w))
         (files w) out
         (length urls, length urls)).
Proof.
  intros Hget Hfault Hfile Hfolder Hurls.
  unfold download_m3u8. rewrite bind_run, (get_body _ _ _ _ Hget).
  rewrite bind_run, (makedirs_effect _ _ _ (proj1 Hfolder) Hfault Hfile).
  rewrite bind_run, lift_run, Hurls.
  rewrite bind_run. unfold thread_pool, state.
  change (List.map ?f ?l) with (f <$> l). rewrite completion_order_fmap.
  edestruct (run_all_effect E output_folder
               (completion_order (sched E) urls)
               (set_dirs (<[output_folder := default ∅ (dirs w !! output_folder)]>
                            (dirs w)) w))
    as (out & Hrun); [done| |].
  { unfold set_dirs. cbn [dirs]. apply lookup_insert_eq. }
  rewrite Hrun. rewrite bind_run. unfold tqdm at 1. rewrite bind_run.
  rewrite length_replicate, for_as_completed_all_ok.
  rewrite bind_run, print_run. unfold set_dirs. cbn.
  rewrite insert_insert_eq. rewrite (Permutation_length (completion_order_perm _ _)).
  by eexists.
Qed.


Lemma save_commute E output_folder entries u1 u2 :
  chunk_name u1 ≠ chunk_name u2 →
  save E output_folder (save E output_folder entries u1) u2
  = save E output_folder (save E output_folder entries u2) u1.
Proof.
  intros Hne. unfold save.
  destruct (saved_bytes E output_folder u1), (saved_bytes E output_folder u2);
    try done.
  by apply insert_insert_ne.
Qed.

Lemma foldl_save_permutation E output_folder (urls urls' : list string) entries :
  urls ≡ₚ urls' →
  NoDup (chunk_name <$> urls) →
  foldl (save E output_folder) entries urls
  = foldl (save E output_folder) entries urls'.
Proof.
  intros Hperm. revert entries.
  induction Hperm as [|u l l' _ IH|u1 u2 l|l1 l2 l3 H12 IH12 H23 IH23];
    intros entries Hnodup.
  - done.
  - cbn [foldl]. apply IH. cbn [fmap list_fmap] in Hnodup.
    by apply NoDup_cons in Hnodup as [_ ?].
  - cbn [foldl]. f_equal. apply save_commute.
    cbn [fmap list_fmap] in Hnodup. apply NoDup_cons in Hnodup as [Hnot _].
    intros Heq. apply Hnot. rewrite Heq. apply list_elem_of_here.
  - rewrite IH12 by done. apply IH23. by rewrite <- H12.
Qed.

(** X2.  When the chunks of a playlist are saved under pairwise different
    names, the order in which the pool completes its tasks does not matter:
    another order leaves the same directories, the same files, and the same
    progress count.  (When the chunk references cannot be had, no task is
    submitted and both runs raise alike.) *)
Theorem completion_order_is_irrelevant (E : env) (schedule : list nat)
    (m3u8_url output_folder playlist : string) (w : world) :
  session_get E m3u8_url = Body playlist →
  fs_fault E OpMakedirs output_folder = None →
  files w !! output_folder = None →
  plain_folder output_folder →
  (∀ urls, ts_urls m3u8_url playlist = Ok urls → NoDup (chunk_name <$> urls)) →
  fst (download_m3u8 (with_sched E schedule) m3u8_url output_folder w)
  = fst (download_m3u8 E m3u8_url output_folder w)
  ∧ dirs (snd (download_m3u8 (with_sched E schedule) m3u8_url output_folder w))
    = dirs (snd (download_m3u8 E m3u8_url output_folder w))
  ∧ files (snd (download_m3u8 (with_sched E schedule) m3u8_url output_folder w))
    = files (snd (download_m3u8 E m3u8_url output_folder w))
  ∧ bar (snd (download_m3u8 (with_sched E schedule) m3u8_url output_folder w))
    = bar (snd (download_m3u8 E m3u8_url output_folder w)).
Proof.
  intros Hget Hfault Hfile Hfolder Hnodup.
  destruct (ts_urls m3u8_url playlist) as [urls|e] eqn:Hurls.
  2:{ rewrite (download_m3u8_unresolved E _ _ _ _ _ Hget Hurls).
      rewrite (download_m3u8_unresolved (with_sched E schedule) _ _ _ _ _ Hget Hurls).
      change (makedirs (with_sched E schedule)) with (makedirs E). done. }
  specialize (Hnodup urls eq_refl).
  destruct (download_m3u8_effect E m3u8_url output_folder playlist urls w
              Hget Hfault (or_intror Hfile) Hfolder Hurls) as (out & ->).
  destruct (download_m3u8_effect (with_sched E schedule) m3u8_url output_folder
              playlist urls w Hget Hfault (or_intror Hfile) Hfolder Hurls)
    as (out' & ->).
  cbn [fst snd dirs files bar with_sched sched]. split; [done|].
  split; [|done]. f_equal.
  change (save (with_sched E schedule) output_folder) with (save E output_folder).
  rewrite (foldl_save_permutation E output_folder
             (completion_order schedule urls) urls);
    [|apply completion_order_perm|by rewrite completion_order_perm].
  symmetry. apply foldl_save_permutation; [apply completion_order_perm|].
  by rewrite completion_order_perm.
Qed.

Lemma completion_order_is_irrelevant_witness :
  dirs (snd (download_m3u8 (with_sched one_bad_chunk_env [2; 0; 7])
               "https://host/path/playlist.m3u8" "output" empty_world))
  = dirs (snd (download_m3u8 one_bad_chunk_env
                 "https://host/path/playlist.m3u8" "output" empty_world)).
Proof.
  apply (completion_order_is_irrelevant one_bad_chunk_env [2; 0; 7]
           "https://host/path/playlist.m3u8" "output"
           ("seg000.ts" +:+ nl +:+ "seg001.ts" +:+ nl +:+ "seg002.ts" +:+ nl)
           empty_world); try reflexivity.
  - split; reflexivity.
  - intros urls [= <-]. apply (bool_decide_unpack _). vm_compute. exact I.
Defined.

Lemma foldl_save_dom E output_folder (urls : list string) entries :
  dom entries ⊆ dom (foldl (save E output_folder) entries urls).
Proof.
  revert entries. induction urls as [|u urls IH]; intros entries; [done|].
  cbn [foldl]. etrans; [|apply IH]. unfold save.
  destruct (saved_bytes E output_folder u); [|done].
  rewrite dom_insert. set_solver.
Qed.



(** ** Files that were there before *)

Lemma makedirs_keeps E p w : keeps_entries w (snd (makedirs E p w)).
Proof.
  unfold makedirs, fault. rewrite bind_run.
  destruct (fs_fault E OpMakedirs p); [apply keeps_entries_refl|].
  unfold ret, state. destruct (negb (PyStr.truthy p)); [apply keeps_entries_refl|].
  destruct (dirs w !! p) as [entries|] eqn:Hd; [apply keeps_entries_refl|].
  destruct (files w !! p); [apply keeps_entries_refl|].
  cbn [snd]. intros d e' Hd'. exists e'. split; [|done].
  unfold set_dirs. cbn [dirs]. rewrite lookup_insert_ne; [done|]. congruence.
Qed.

Lemma download_m3u8_keeps E m3u8_url output_folder w :
  keeps_entries w (snd (download_m3u8 E m3u8_url output_folder w)).
Proof.
  unfold download_m3u8. rewrite bind_run. unfold get.
  destruct (session_get E m3u8_url) as [playlist|msg];
    [|apply keeps_entries_refl].
  cbn [ret]. rewrite bind_run.
  pose proof (makedirs_keeps E output_folder w) as Hk1.
  destruct (makedirs E output_folder w) as [[[]|e] w1]; cbn [snd] in Hk1; [|done].
  rewrite bind_run, lift_run.
  destruct (ts_urls m3u8_url playlist) as [urls|e]; [|done].
  rewrite bind_run. unfold thread_pool, state.
  set (tasks := completion_order (sched E) _).
  assert (Hall : Forall well_behaved tasks).
  { unfold tasks. rewrite completion_order_perm. apply Forall_forall.
    intros t [u [-> _]]%list_elem_of_fmap. apply download_ts_segment_well_behaved. }
  destruct (run_all_well_behaved tasks w1 Hall) as (w2 & Hrun & Hk2).
  rewrite Hrun. rewrite bind_run. unfold tqdm at 1. rewrite bind_run.
  rewrite length_replicate, for_as_completed_all_ok.
  rewrite bind_run, print_run. cbn [snd dirs].
  eapply keeps_entries_trans; [exact Hk1|].
  eapply keeps_entries_trans; [exact Hk2|]. by apply keeps_entries_same_dirs.
Qed.

(** X4.  [download_m3u8] removes nothing: whatever the network, the file
    system and the pool do, and whether it returns or raises, every
    directory and every file of a directory that was there before the call
    is there after it.  The folder is reused as it is found. *)
Theorem download_m3u8_removes_nothing (E : env) (m3u8_url output_folder : string)
    (w : world) :
  (∀ d, is_Some (dirs w !! d) →
        is_Some (dirs (snd (download_m3u8 E m3u8_url output_folder w)) !! d))
  ∧ (∀ d n, has_entry w d n →
            has_entry (snd (download_m3u8 E m3u8_url output_folder w)) d n).
Proof.
  pose proof (download_m3u8_keeps E m3u8_url output_folder w) as Hk.
  split.
  - intros d. by apply keeps_entries_dir.
  - intros d n. by apply keeps_entries_has_entry.
Qed.

(** X5.  A [.ts] file that an earlier run left in the folder is listed in
    the manifest that follows a download, whether or not the playlist names
    it: the folder is not emptied before the downloads, and the manifest is
    built from the folder, not from the playlist. *)
Theorem stale_chunk_is_listed (E : env)
    (m3u8_url output_folder list_file_name f : string) (w w1 : world)
    (v : pyval) :
  download_m3u8 E m3u8_url output_folder w = (Ok v, w1) →
  has_entry w output_folder f →
  is_ts f →
  fs_fault E OpListdir output_folder = None →
  fs_fault E OpOpen list_file_name = None →
  PyStr.contains "/" list_file_name = false →
  names_a_directory list_file_name = false →
  dirs w1 !! list_file_name = None →
  ∃ w2 ts,
    create_file_list E output_folder list_file_name w1 = (Ok PyNone, w2)
    ∧ files w2 !! list_file_name
      = Some (concat_all (manifest_record output_folder <$> ts))
    ∧ f ∈ ts.
Proof.
  intros Hrun Hf Hts Hlist Hopen Hplain Hname Hnodir.
  pose proof (download_m3u8_keeps E m3u8_url output_folder w) as Hk.
  rewrite Hrun in Hk. cbn [snd] in Hk.
  destruct (keeps_entries_has_entry _ _ _ _ Hk Hf) as (entries1 & Hd1 & Hf1).
  eexists _, (ts_files_of (elements (dom entries1))). split.
  - by apply (create_file_list_run E output_folder list_file_name _ entries1).
  - cbn [files]. split; [by rewrite lookup_insert_eq|].
    by apply ts_files_of_spec.
Qed.

Lemma stale_chunk_is_listed_witness :
  ∃ w2 ts,
    create_file_list one_bad_chunk_env "output" "file_list.txt"
      (snd (download_m3u8 one_bad_chunk_env "https://host/path/playlist.m3u8"
              "output" stale_world))
    = (Ok PyNone, w2)
    ∧ files w2 !! "file_list.txt"
      = Some (concat_all (manifest_record "output" <$> ts))
    ∧ "old.ts" ∈ ts.
Proof.
  apply (stale_chunk_is_listed one_bad_chunk_env
           "https://host/path/playlist.m3u8" "output" "file_list.txt" "old.ts"
           stale_world _ PyNone).
  - vm_compute. reflexivity.
  - exists {["old.ts" := "stale"]}. split; [reflexivity|].
    apply elem_of_dom. by eexists.
  - reflexivity.
  - reflexivity.
  - reflexivity.
  - reflexivity.
  - reflexivity.
  - vm_compute. reflexivity.
Defined.

(** ** A playlist without chunks *)



(** ** The end of a run *)

Lemma execute_ffmpeg_command_cannot_start E input_file output_file compress w msg :
  subprocess E (ffmpeg_command input_file output_file compress) w = CannotStart msg →
  execute_ffmpeg_command E input_file output_file compress w
  = (Raise (OSError msg), w).
Proof.
  intros Hproc. unfold execute_ffmpeg_command. cbv zeta.
  rewrite bind_run. unfold try_except. rewrite bind_run.
  unfold subprocess_run. by rewrite Hproc.
Qed.

Lemma execute_ffmpeg_command_success E input_file output_file compress w d f :
  subprocess E (ffmpeg_command input_file output_file compress) w = Exits 0 d f →
  execute_ffmpeg_command E input_file output_file compress w
  = (Ok PyNone,
     World d f (stdout w ++ ["Successfully created " +:+ output_file]) (bar w)).
Proof.
  intros Hproc. unfold execute_ffmpeg_command. cbv zeta.
  rewrite bind_run. unfold try_except. rewrite bind_run.
  unfold subprocess_run. rewrite Hproc. cbn [Z.eqb].
  by rewrite print_run.
Qed.

(** X7.  When the transcoder cannot be started at all (the program is
    missing, say), the invoker's handler does not apply: the [OSError]
    leaves the invoker with nothing printed, and leaves the script before
    the cleanup, so the working directory with its chunks stays behind and
    the exit status is 1. *)
Theorem missing_transcoder_skips_cleanup (E : env) (a : args)
    (w w1 w2 : world) (v1 v2 : pyval) (msg : string) :
  download_m3u8 E (url a) "output" w = (Ok v1, w1) →
  create_file_list E "output" "file_list.txt" w1 = (Ok v2, w2) →
  subprocess E (ffmpeg_command "file_list.txt" (output a) (compress a)) w2
  = CannotStart msg →
  execute_ffmpeg_command E "file_list.txt" (output a) (compress a) w2
  = (Raise (OSError msg), w2)
  ∧ main E a w = (Raise (OSError msg), w2)
  ∧ exit_status (fst (main E a w)) = 1%Z.
Proof.
  intros Hdown Hlist Hproc.
  pose proof (execute_ffmpeg_command_cannot_start E _ _ _ _ _ Hproc) as Hexec.
  assert (Hmain : main E a w = (Raise (OSError msg), w2)).
  { unfold main. by rewrite bind_run, Hdown, bind_run, Hlist, bind_run, Hexec. }
  rewrite Hmain. done.
Qed.

Lemma missing_transcoder_skips_cleanup_witness :
  ∃ w2,
    main no_ffmpeg_env (Args "https://host/path/playlist.m3u8" "output.mp4" true)
      empty_world
    = (Raise (OSError "No such file or directory: 'ffmpeg'"), w2)
    ∧ file_content w2 "output" "seg000.ts"
      = Some "bytes of https://host/path/seg000.ts".
Proof.
  edestruct (missing_transcoder_skips_cleanup no_ffmpeg_env
               (Args "https://host/path/playlist.m3u8" "output.mp4" true)
               empty_world) as (_ & Hmain & _).
  - vm_compute. reflexivity.
  - vm_compute. reflexivity.
  - reflexivity.
  - eexists. split; [exact Hmain|]. vm_compute. reflexivity.
Defined.



(** X9.  With [--compress] the line [Video compressed using libx264 and
    aac audio.] is printed after the invoker whatever the transcoder did:
    it is the last line of a run in which the transcoder exited with a
    non-zero status and printed its error. *)
Theorem compressed_message_after_failure (E : env) (a : args)
    (w w1 w2 : world) (v1 v2 : pyval) (rc : Z)
    (d : gmap string (gmap string string)) (f : gmap string string) :
  compress a = true →
  download_m3u8 E (url a) "output" w = (Ok v1, w1) →
  create_file_list E "output" "file_list.txt" w1 = (Ok v2, w2) →
  subprocess E (ffmpeg_command "file_list.txt" (output a) (compress a)) w2
  = Exits rc d f →
  rc ≠ 0%Z →
  fs_fault E OpRmtree "output" = None →
  is_Some (d !! "output") →
  ∃ w',
    main E a w = (Ok tt, w')
    ∧ "Error executing ffmpeg command: " +:+ str_exn E (CalledProcessError rc None)
      ∈ stdout w'
    ∧ last (stdout w') = Some "Video compressed using libx264 and aac audio.".
Proof.
  intros Hc Hdown Hlist Hproc Hrc Hfault [entries Hdir].
  pose proof (execute_ffmpeg_command_failure E _ _ _ _ _ _ _ Hproc Hrc) as Hexec.
  unfold main. rewrite bind_run, Hdown, bind_run, Hlist, bind_run, Hexec, bind_run.
  rewrite Hc, print_run. cbn [dirs files stdout bar].
  unfold rmtree, fault. rewrite bind_run, Hfault. unfold ret, state.
  cbn [dirs]. rewrite Hdir. eexists. split; [done|]. cbn [stdout].
  split; [set_solver|apply last_snoc].
Qed.

Lemma compressed_message_after_failure_witness :
  ∃ w',
    main failing_encoder_env
      (Args "https://host/path/playlist.m3u8" "output.mp4" true) empty_world
    = (Ok tt, w')
    ∧ last (stdout w') = Some "Video compressed using libx264 and aac audio.".
Proof.
  edestruct (compressed_message_after_failure failing_encoder_env
               (Args "https://host/path/playlist.m3u8" "output.mp4" true)
               empty_world) as (w' & Hmain & _ & Hlast).
  - reflexivity.
  - vm_compute. reflexivity.
  - vm_compute. reflexivity.
  - vm_compute. reflexivity.
  - discriminate.
  - reflexivity.
  - vm_compute. by eexists.
  - exists w'. by split.
Defined.

(** X10.  No [CalledProcessError] ever leaves the invoker, and it never
    returns anything but [None]: in every environment and from every world
    it either returns [None] or raises the [OSError] of a process that
    could not be started, in which case it has changed nothing. *)
Theorem invoker_outcomes (E : env) (input_file output_file : string)
    (compress : bool) (w : world) :
  (∃ w', execute_ffmpeg_command E input_file output_file compress w
         = (Ok PyNone, w'))
  ∨ (∃ msg, execute_ffmpeg_command E input_file output_file compress w
            = (Raise (OSError msg), w)).
Proof.
  destruct (subprocess E (ffmpeg_command input_file output_file compress) w)
    as [msg|rc d f] eqn:Hproc.
  - right. exists msg. by apply execute_ffmpeg_command_cannot_start.
  - left. destruct (decide (rc = 0%Z)) as [->|Hrc].
    + eexists. by apply execute_ffmpeg_command_success.
    + eexists. by apply execute_ffmpeg_command_failure.
Qed.

(** ** Line endings of the playlist *)

Lemma splitlines_go_crlf (cur s : string) :
  PyStr.contains PyStr.CR s = false →
  PyStr.splitlines_go cur false (to_crlf s) = PyStr.splitlines_go cur false s.
Proof.
  revert cur. induction s as [|c s IH]; intros cur Hcr; [done|].
  cbn [PyStr.contains] in Hcr. apply orb_false_elim in Hcr as [Hc Hs].
  cbn [to_crlf]. destruct (Ascii.eqb_spec c PyStr.LF) as [->|Hlf].
  - cbn. by rewrite IH.
  - cbn [PyStr.splitlines_go andb]. rewrite Hc.
    destruct (PyStr.is_line_boundary c); by rewrite IH.
Qed.

(** X11.  A playlist written with CR LF line ends gives the same chunk
    references as the same playlist written with LF: the CR does not stay
    at the end of the entries. *)
Theorem crlf_playlist_same_refs (m3u8_url m3u8_content : string) :
  PyStr.contains PyStr.CR m3u8_content = false →
  PyStr.splitlines (to_crlf m3u8_content) = PyStr.splitlines m3u8_content
  ∧ ts_urls m3u8_url (to_crlf m3u8_content) = ts_urls m3u8_url m3u8_content.
Proof.
  intros Hcr. unfold ts_urls, PyStr.splitlines.
  by rewrite splitlines_go_crlf.
Qed.

Lemma crlf_playlist_same_refs_witness :
  ts_urls "https://host/path/playlist.m3u8"
    ("#EXTM3U" +:+ String PyStr.CR nl +:+ "seg000.ts" +:+ String PyStr.CR nl
     +:+ "seg001.ts" +:+ String PyStr.CR nl)
  = Ok ["https://host/path/seg000.ts"; "https://host/path/seg001.ts"].
Proof.
  pose proof (crlf_playlist_same_refs "https://host/path/playlist.m3u8"
                ("#EXTM3U" +:+ nl +:+ "seg000.ts" +:+ nl +:+ "seg001.ts" +:+ nl)
                eq_refl) as [_ Hrefs].
  exact Hrefs.
Defined.

Lemma splitlines_go_final_newline (cur : string) (after_cr : bool) (s : string) :
  (after_cr = true → cur = "") →
  filter names_chunk (PyStr.splitlines_go cur after_cr (s +:+ nl))
  = filter names_chunk (PyStr.splitlines_go cur after_cr s).
Proof.
  revert cur after_cr. induction s as [|c s IH]; intros cur after_cr Hinv.
  - cbn [String.append]. unfold nl. cbn [PyStr.splitlines_go].
    rewrite Ascii.eqb_refl, andb_true_r.
    destruct after_cr.
    + rewrite (Hinv eq_refl). done.
    + replace (PyStr.is_line_boundary PyStr.LF) with true by reflexivity.
      destruct cur as [|x cur]; cbn [PyStr.truthy]; [|done].
      rewrite filter_cons. destruct (decide (names_chunk "")) as [[H _]|_]; done.
  - cbn [String.append PyStr.splitlines_go].
    destruct (after_cr && Ascii.eqb c PyStr.LF); [by apply IH|].
    destruct (PyStr.is_line_boundary c).
    + rewrite !filter_cons, IH by done. done.
    + by apply IH.
Qed.

(** X12.  A line feed at the end of the playlist makes no difference to the
    chunk references: the same references come out with and without it,
    whatever the playlist ends with. *)
Theorem final_newline_same_refs (m3u8_url m3u8_content : string) :
  ts_urls m3u8_url (m3u8_content +:+ nl) = ts_urls m3u8_url m3u8_content.
Proof.
  unfold ts_urls.
  rewrite chunk_refs_filter, (chunk_refs_filter _ (PyStr.splitlines m3u8_content)).
  unfold PyStr.splitlines. by rewrite splitlines_go_final_newline.
Qed.

(** ** Chunks that cannot be saved *)

(** X13.  A chunk reference whose URL path has no last segment (it ends in
    a separator, or is empty) or ends in [.] or [..] is never saved: the
    path to open would be a directory, the failure is caught, and the unit
    leaves directories and files as they were and prints one line.  The
    same holds of a reference that [urlparse] rejects. *)
Theorem chunk_without_name_is_not_saved (E : env) (ts_url output_folder : string)
    (w : world) :
  plain_folder output_folder →
  names_a_directory (chunk_name ts_url) = true →
  ∃ e,
    download_ts_segment E ts_url output_folder w
    = (Ok PyNone,
       World (dirs w) (files w)
         (stdout w ++ ["Failed to download " +:+ ts_url +:+ ": " +:+ str_exn E e])
         (bar w)).
Proof.
  intros [Htruthy Hends] Hname.
  pose proof (locate_join output_folder (chunk_name ts_url) Htruthy Hends
                (chunk_name_no_separator ts_url)) as Hloc.
  destruct (UrlLib.urlparse ts_url "") as [parsed|e] eqn:Hp.
  2:{ rewrite (download_ts_segment_unparsed _ _ _ _ _ Hp). by eexists. }
  destruct (session_get E ts_url) as [b|msg] eqn:Hget.
  2:{ rewrite (download_ts_segment_network_failure _ _ _ _ _ _ Hp Hget).
      by eexists. }
  destruct (fs_fault E OpOpen (PosixPath.join output_folder (chunk_name ts_url)))
    as [msg|] eqn:Hfault.
  { rewrite (download_ts_segment_fs_failure _ _ _ _ _ _ _ Hp Hget Hfault).
    by eexists. }
  rewrite (download_ts_segment_parsed _ _ _ _ _ Hp). unfold try_except.
  rewrite bind_run, (get_body _ _ _ _ Hget).
  rewrite bind_run. unfold open_w, fault. rewrite bind_run, Hfault.
  unfold ret at 1, state. rewrite Hloc, Hname.
  destruct (dirs w !! output_folder); cbn [is_Exception];
    rewrite bind_run, print_run; by eexists.
Qed.

Lemma chunk_without_name_is_not_saved_witness :
  chunk_name "https://host/path/segments/" = ""
  ∧ ∃ e,
      download_ts_segment quiet_env "https://host/path/segments/" "output"
        three_chunks_world
      = (Ok PyNone,
         World (dirs three_chunks_world) (files three_chunks_world)
           (stdout three_chunks_world
            ++ ["Failed to download https://host/path/segments/: "
                +:+ str_exn quiet_env e])
           (bar three_chunks_world)).
Proof.
  split; [reflexivity|].
  apply (chunk_without_name_is_not_saved quiet_env "https://host/path/segments/"
           "output" three_chunks_world); [split; reflexivity|reflexivity].
Defined.

(** ** Failures before anything is written *)



(** X15.  When the folder's path is taken by a regular file, the playlist
    is fetched and then [download_m3u8] raises from the creation of the
    folder: no unit is run and the world is unchanged. *)
Theorem folder_path_taken_by_file (E : env) (m3u8_url output_folder playlist c : string)
    (w : world) :
  session_get E m3u8_url = Body playlist →
  dirs w !! output_folder = None →
  files w !! output_folder = Some c →
  ∃ msg,
    download_m3u8 E m3u8_url output_folder w = (Raise (OSError msg), w).
Proof.
  intros Hget Hd Hfile. unfold download_m3u8.
  rewrite bind_run, (get_body _ _ _ _ Hget). rewrite bind_run.
  unfold makedirs, fault. rewrite bind_run.
  destruct (fs_fault E OpMakedirs output_folder) as [msg|]; [by exists msg|].
  unfold ret at 1, state. rewrite Hd, Hfile.
  destruct (negb (PyStr.truthy output_folder)); by eexists.
Qed.

Lemma folder_path_taken_by_file_witness :
  ∃ msg,
    download_m3u8 one_bad_chunk_env "https://host/path/playlist.m3u8" "output"
      (World ∅ {["output" := "a file"]} [] (0, 0))
    = (Raise (OSError msg), World ∅ {["output" := "a file"]} [] (0, 0)).
Proof.
  apply (folder_path_taken_by_file one_bad_chunk_env
           "https://host/path/playlist.m3u8" "output"
           ("seg000.ts" +:+ nl +:+ "seg001.ts" +:+ nl +:+ "seg002.ts" +:+ nl)
           "a file"); reflexivity.
Defined.
